(** * pygamit-bridge: the RINEX 3 -> RINEX 2.11 converter

    A shallow embedding of [src/pygamit_bridge/converter.py] and the
    properties of its functions.

    Conventions of the embedding.
    - A Python [str] is a [string]; a character is a code point below 256.
    - A text file is the [string] of its decoded characters; [readlines]
      splits it the way Python's text mode does (universal newlines).
    - [f.write(s)] calls are collected, in order, in a [list string]; the
      file written is their concatenation.
    - Python's [float] is kept abstract behind the class [PyFloat]: the
      converter only parses floats from text and formats them back.
    - An uncaught Python exception is the [Raise] case of [result]. *)

From Stdlib Require Import ZArith Ascii String List Lia ZifyNat.
From stdpp Require Import gmap strings list pretty.

Local Open Scope Z_scope.
Local Open Scope nat_scope.

(** ** Python builtins used by the converter *)

Module Py.

(** [str.isspace] on the code points below 256. *)
Definition isspace (c : ascii) : bool :=
  let n := nat_of_ascii c in
  ((9 <=? n) && (n <=? 13)) || ((28 <=? n) && (n <=? 32))
  || (n =? 133) || (n =? 160).

Fixpoint str_drop (n : nat) (s : string) : string :=
  match n, s with
  | 0, _ => s
  | S _, EmptyString => EmptyString
  | S n', String _ s' => str_drop n' s'
  end.

Fixpoint str_take (n : nat) (s : string) : string :=
  match n, s with
  | 0, _ => EmptyString
  | S _, EmptyString => EmptyString
  | S n', String c s' => String c (str_take n' s')
  end.

(** [s[a:b]] for literal bounds [0 <= a], [0 <= b]. *)
Definition slice (a b : nat) (s : string) : string :=
  str_take (b - a) (str_drop a s).

(** [s[a:]] *)
Definition slice_from (a : nat) (s : string) : string := str_drop a s.

(** [l[:n]] on a list, for any integer [n] (a negative bound counts from
    the end). *)
Definition list_upto {A} (n : Z) (l : list A) : list A :=
  if (0 <=? n)%Z then take (Z.to_nat n) l
  else take (length l - Z.to_nat (- n)) l.

Fixpoint lstrip (s : string) : string :=
  match s with
  | EmptyString => EmptyString
  | String c s' => if isspace c then lstrip s' else s
  end.

Definition rstrip (s : string) : string :=
  String.rev (lstrip (String.rev s)).

Definition strip (s : string) : string := rstrip (lstrip s).

(** [s.split()]: the maximal runs of non-space characters. *)
Fixpoint split_go (cur : option string) (s : string) : list string :=
  match s with
  | EmptyString =>
      match cur with Some w => [String.rev w] | None => [] end
  | String c s' =>
      if isspace c then
        match cur with
        | Some w => String.rev w :: split_go None s'
        | None => split_go None s'
        end
      else split_go (Some (String c (default EmptyString cur))) s'
  end.

Definition split (s : string) : list string := split_go None s.

Definition startswith (p s : string) : bool := String.prefix p s.

(** [' ' * n] *)
Fixpoint spaces (n : nat) : string :=
  match n with 0 => EmptyString | S n' => String " " (spaces n') end.

Definition ljust (w : nat) (s : string) : string :=
  s +:+ spaces (w - String.length s).

Definition rjust (w : nat) (s : string) : string :=
  spaces (w - String.length s) +:+ s.

(** [''.join(l)] *)
Definition join (l : list string) : string :=
  foldr String.append EmptyString l.

(** Format specs [{s:Ns}], [{s:>Ns}] and [{n:Nd}]. *)
Definition fmt_s (w : nat) (s : string) : string := ljust w s.
Definition fmt_rs (w : nat) (s : string) : string := rjust w s.
Definition fmt_d (w : nat) (n : Z) : string := rjust w (pretty n).

(** The white space that [int()] and [float()] pass over around a
    number: the ASCII white space, and the white space above U+007F, which
    the conversion first reads as a blank. The separators U+001C to U+001F
    are white space for [str.strip] but not for the conversions. *)
Definition isspace_num (c : ascii) : bool :=
  let n := nat_of_ascii c in
  ((9 <=? n) && (n <=? 13)) || (n =? 32) || (n =? 133) || (n =? 160).

Fixpoint lstrip_num (s : string) : string :=
  match s with
  | EmptyString => EmptyString
  | String c s' => if isspace_num c then lstrip_num s' else s
  end.

Definition strip_num (s : string) : string :=
  String.rev (lstrip_num (String.rev (lstrip_num s))).

(** [int(s)]: the white space of the conversions around the number is
    passed over, then an optional sign and decimal digits, single
    underscores allowed between digits. [None] stands for [ValueError]. *)
Fixpoint digits (acc : Z) (after_digit : bool) (s : string) : option Z :=
  match s with
  | EmptyString => if after_digit then Some acc else None
  | String c s' =>
      match Ascii.is_nat c with
      | Some d => digits (10 * acc + Z.of_nat d)%Z true s'
      | None =>
          if Ascii.eqb c "_" && after_digit then digits acc false s'
          else None
      end
  end.

Definition int (s : string) : option Z :=
  match strip_num s with
  | String "-" t => Z.opp <$> digits 0%Z false t
  | String "+" t => digits 0%Z false t
  | t => digits 0%Z false t
  end.

(** [f.readlines()] of a text-mode file: ["\r\n"] and ["\r"] are read as
    ["\n"], every line keeps its ["\n"], a last line without one is kept
    as it is. [cur] is the current line, reversed. *)
Definition nl : ascii := "010".
Definition cr : ascii := "013".

Fixpoint readlines_go (cur : string) (s : string) : list string :=
  match s with
  | EmptyString =>
      match cur with EmptyString => [] | _ => [String.rev cur] end
  | String c s' =>
      if Ascii.eqb c nl then
        String.rev (String nl cur) :: readlines_go EmptyString s'
      else if Ascii.eqb c cr then
        String.rev (String nl cur) ::
          match s' with
          | String c' s'' =>
              if Ascii.eqb c' nl then readlines_go EmptyString s''
              else readlines_go EmptyString s'
          | EmptyString => []
          end
      else readlines_go (String c cur) s'
  end.

Definition readlines (content : string) : list string :=
  readlines_go EmptyString content.

End Py.

(** Python's [float], as far as the converter uses it. *)
Class PyFloat := {
  float : Type;
  (** [float(s)]; [None] stands for [ValueError]. *)
  float_of_str : string -> option float;
  (** a float literal with an integral value, [0.0] or [30.0] *)
  float_of_Z : Z -> float;
  (** [f"{x:W.Pf}"] *)
  fmt_f : nat -> nat -> float -> string
}.

(** Uncaught exceptions. *)
Inductive exn := ValueError | IndexError.

Inductive result (A : Type) :=
| Ok (a : A)
| Raise (e : exn).
Arguments Ok {A} a.
Arguments Raise {A} e.

Notation "a == b" := (String.eqb a b) (at level 70, no associativity).

(** ** The translation table [OBS_MAPPING] *)

Definition OBS_MAPPING : gmap string string :=
  list_to_map [
    (* GPS L1 *)
    ("C1C", "C1"); ("C1S", "C1"); ("C1L", "C1"); ("C1X", "C1");
    ("C1P", "P1"); ("C1W", "P1");
    ("L1C", "L1"); ("L1S", "L1"); ("L1L", "L1"); ("L1X", "L1");
    ("L1P", "L1"); ("L1W", "L1");
    ("D1C", "D1"); ("D1S", "D1"); ("D1L", "D1"); ("D1X", "D1");
    ("S1C", "S1"); ("S1S", "S1"); ("S1L", "S1"); ("S1X", "S1");
    (* GPS L2 *)
    ("C2C", "C2"); ("C2S", "C2"); ("C2L", "C2"); ("C2X", "C2");
    ("C2P", "P2"); ("C2W", "P2");
    ("L2C", "L2"); ("L2S", "L2"); ("L2L", "L2"); ("L2X", "L2");
    ("L2P", "L2"); ("L2W", "L2");
    ("D2C", "D2"); ("D2S", "D2"); ("D2L", "D2"); ("D2X", "D2");
    ("S2C", "S2"); ("S2S", "S2"); ("S2L", "S2"); ("S2X", "S2");
    (* GPS L5 *)
    ("C5I", "C5"); ("C5Q", "C5"); ("C5X", "C5");
    ("L5I", "L5"); ("L5Q", "L5"); ("L5X", "L5");
    ("D5I", "D5"); ("D5Q", "D5"); ("D5X", "D5");
    ("S5I", "S5"); ("S5Q", "S5"); ("S5X", "S5")
  ].

(** Truth value of [OBS_MAPPING.get(code, None)]: [None] and the empty
    string are false. *)
Definition truthy (o : option string) : bool :=
  match o with
  | Some (String _ _) => true
  | _ => false
  end.

Section Converter.
Context `{PyFloat}.
Import Py.

(** ** The header dictionary *)

Record receiver_t := {
  rec_serial : string; rec_type : string; rec_version : string }.

Record antenna_t := {
  ant_serial : string; ant_type : string; ant_delta : float * float * float }.

Record header := {
  version : string;
  type_ : string;
  system : string;
  marker_name : string;
  marker_number : string;
  observer : string;
  agency : string;
  receiver : receiver_t;
  antenna : antenna_t;
  approx_pos : float * float * float;
  obs_types : gmap string (list string);
  interval : float;
  time_first : string;
  time_last : string;
  header_end_line : nat }.

Definition initial_header : header := {|
  version := "3.04";
  type_ := "O";
  system := "M";
  marker_name := "";
  marker_number := "";
  observer := "";
  agency := "";
  receiver := {| rec_serial := ""; rec_type := ""; rec_version := "" |};
  antenna := {| ant_serial := ""; ant_type := "";
                ant_delta := (float_of_Z 0, float_of_Z 0, float_of_Z 0) |};
  approx_pos := (float_of_Z 0, float_of_Z 0, float_of_Z 0);
  obs_types := ∅;
  interval := float_of_Z 30;
  time_first := "";
  time_last := "";
  header_end_line := 0 |}.

(** Assignments [header[key] = value]. *)
Definition set_version_type (v t s : string) (h : header) : header :=
  {| version := v; type_ := t; system := s;
     marker_name := marker_name h; marker_number := marker_number h;
     observer := observer h; agency := agency h; receiver := receiver h;
     antenna := antenna h; approx_pos := approx_pos h;
     obs_types := obs_types h; interval := interval h;
     time_first := time_first h; time_last := time_last h;
     header_end_line := header_end_line h |}.

Definition set_marker_name (v : string) (h : header) : header :=
  {| version := version h; type_ := type_ h; system := system h;
     marker_name := v; marker_number := marker_number h;
     observer := observer h; agency := agency h; receiver := receiver h;
     antenna := antenna h; approx_pos := approx_pos h;
     obs_types := obs_types h; interval := interval h;
     time_first := time_first h; time_last := time_last h;
     header_end_line := header_end_line h |}.

Definition set_marker_number (v : string) (h : header) : header :=
  {| version := version h; type_ := type_ h; system := system h;
     marker_name := marker_name h; marker_number := v;
     observer := observer h; agency := agency h; receiver := receiver h;
     antenna := antenna h; approx_pos := approx_pos h;
     obs_types := obs_types h; interval := interval h;
     time_first := time_first h; time_last := time_last h;
     header_end_line := header_end_line h |}.

Definition set_observer_agency (o a : string) (h : header) : header :=
  {| version := version h; type_ := type_ h; system := system h;
     marker_name := marker_name h; marker_number := marker_number h;
     observer := o; agency := a; receiver := receiver h;
     antenna := antenna h; approx_pos := approx_pos h;
     obs_types := obs_types h; interval := interval h;
     time_first := time_first h; time_last := time_last h;
     header_end_line := header_end_line h |}.

Definition set_receiver (r : receiver_t) (h : header) : header :=
  {| version := version h; type_ := type_ h; system := system h;
     marker_name := marker_name h; marker_number := marker_number h;
     observer := observer h; agency := agency h; receiver := r;
     antenna := antenna h; approx_pos := approx_pos h;
     obs_types := obs_types h; interval := interval h;
     time_first := time_first h; time_last := time_last h;
     header_end_line := header_end_line h |}.

Definition set_antenna (a : antenna_t) (h : header) : header :=
  {| version := version h; type_ := type_ h; system := system h;
     marker_name := marker_name h; marker_number := marker_number h;
     observer := observer h; agency := agency h; receiver := receiver h;
     antenna := a; approx_pos := approx_pos h;
     obs_types := obs_types h; interval := interval h;
     time_first := time_first h; time_last := time_last h;
     header_end_line := header_end_line h |}.

Definition set_approx_pos (p : float * float * float) (h : header) : header :=
  {| version := version h; type_ := type_ h; system := system h;
     marker_name := marker_name h; marker_number := marker_number h;
     observer := observer h; agency := agency h; receiver := receiver h;
     antenna := antenna h; approx_pos := p;
     obs_types := obs_types h; interval := interval h;
     time_first := time_first h; time_last := time_last h;
     header_end_line := header_end_line h |}.

Definition set_obs_types (m : gmap string (list string)) (h : header) : header :=
  {| version := version h; type_ := type_ h; system := system h;
     marker_name := marker_name h; marker_number := marker_number h;
     observer := observer h; agency := agency h; receiver := receiver h;
     antenna := antenna h; approx_pos := approx_pos h;
     obs_types := m; interval := interval h;
     time_first := time_first h; time_last := time_last h;
     header_end_line := header_end_line h |}.

Definition set_interval (x : float) (h : header) : header :=
  {| version := version h; type_ := type_ h; system := system h;
     marker_name := marker_name h; marker_number := marker_number h;
     observer := observer h; agency := agency h; receiver := receiver h;
     antenna := antenna h; approx_pos := approx_pos h;
     obs_types := obs_types h; interval := x;
     time_first := time_first h; time_last := time_last h;
     header_end_line := header_end_line h |}.

Definition set_time_first (v : string) (h : header) : header :=
  {| version := version h; type_ := type_ h; system := system h;
     marker_name := marker_name h; marker_number := marker_number h;
     observer := observer h; agency := agency h; receiver := receiver h;
     antenna := antenna h; approx_pos := approx_pos h;
     obs_types := obs_types h; interval := interval h;
     time_first := v; time_last := time_last h;
     header_end_line := header_end_line h |}.

Definition set_time_last (v : string) (h : header) : header :=
  {| version := version h; type_ := type_ h; system := system h;
     marker_name := marker_name h; marker_number := marker_number h;
     observer := observer h; agency := agency h; receiver := receiver h;
     antenna := antenna h; approx_pos := approx_pos h;
     obs_types := obs_types h; interval := interval h;
     time_first := time_first h; time_last := v;
     header_end_line := header_end_line h |}.

Definition set_header_end_line (i : nat) (h : header) : header :=
  {| version := version h; type_ := type_ h; system := system h;
     marker_name := marker_name h; marker_number := marker_number h;
     observer := observer h; agency := agency h; receiver := receiver h;
     antenna := antenna h; approx_pos := approx_pos h;
     obs_types := obs_types h; interval := interval h;
     time_first := time_first h; time_last := time_last h;
     header_end_line := i |}.

(** ** [_parse_rinex3_header] *)

(** [line[60:].strip() if len(line) > 60 else ''] *)
Definition label_of (line : string) : string :=
  if 60 <? String.length line then strip (slice_from 60 line) else "".

(** The three floats of a position or offset record, inside one [try]:
    [None] when any [float(...)] raises [ValueError]. *)
Definition three_floats (line : string) : option (float * float * float) :=
  x ← float_of_str (slice 0 14 line);
  y ← float_of_str (slice 14 28 line);
  z ← float_of_str (slice 28 42 line);
  Some (x, y, z).

(** The inner [while] of the observation-type record. [rest] holds the
    lines after index [i]; the result is the token list and the number
    of lines by which the loop advanced [i] (the line that ends the
    scan with [break] is counted: [i] was moved onto it). *)
Fixpoint scan_continuation (num_obs : Z) (obs : list string)
    (rest : list string) : list string * nat :=
  if (Z.of_nat (length obs) <? num_obs)%Z then
    match rest with
    | [] => (obs, 0)
    | next_line :: rest' =>
        if label_of next_line == "SYS / # / OBS TYPES" then
          let '(obs', k) :=
            scan_continuation num_obs (obs ++ split (slice 7 60 next_line)) rest' in
          (obs', S k)
        else (obs, 1)
    end
  else (obs, 0).

(** What one iteration of the outer [while] does with [lines[i]]. *)
Inductive step :=
| Next (advanced : nat) (h : header)   (* fall through to [i += 1] *)
| Break (h : header)                   (* [break] *)
| Fail (e : exn).                      (* uncaught exception *)

Definition header_record (i : nat) (line : string) (rest : list string)
    (h : header) : step :=
  let label := label_of line in
  if label == "RINEX VERSION / TYPE" then
    Next 0 (set_version_type (strip (slice 0 9 line)) (strip (slice 20 21 line))
              (strip (slice 40 41 line)) h)
  else if label == "MARKER NAME" then
    Next 0 (set_marker_name (strip (slice 0 60 line)) h)
  else if label == "MARKER NUMBER" then
    Next 0 (set_marker_number (strip (slice 0 20 line)) h)
  else if label == "OBSERVER / AGENCY" then
    Next 0 (set_observer_agency (strip (slice 0 20 line)) (strip (slice 20 40 line)) h)
  else if label == "REC # / TYPE / VERS" then
    Next 0 (set_receiver {| rec_serial := strip (slice 0 20 line);
                            rec_type := strip (slice 20 40 line);
                            rec_version := strip (slice 40 60 line) |} h)
  else if label == "ANT # / TYPE" then
    Next 0 (set_antenna {| ant_serial := strip (slice 0 20 line);
                           ant_type := strip (slice 20 40 line);
                           ant_delta := ant_delta (antenna h) |} h)
  else if label == "APPROX POSITION XYZ" then
    match three_floats line with
    | Some p => Next 0 (set_approx_pos p h)
    | None => Next 0 h
    end
  else if label == "ANTENNA: DELTA H/E/N" then
    match three_floats line with
    | Some d => Next 0 (set_antenna {| ant_serial := ant_serial (antenna h);
                                       ant_type := ant_type (antenna h);
                                       ant_delta := d |} h)
    | None => Next 0 h
    end
  else if label == "SYS / # / OBS TYPES" then
    let sys_code := slice 0 1 line in
    match int (strip (slice 3 6 line)) with
    | None => Fail ValueError
    | Some num_obs =>
        let '(obs, k) := scan_continuation num_obs (split (slice 7 60 line)) rest in
        Next k (set_obs_types (<[sys_code := list_upto num_obs obs]> (obs_types h)) h)
    end
  else if label == "INTERVAL" then
    match float_of_str (slice 0 10 line) with
    | Some x => Next 0 (set_interval x h)
    | None => Next 0 h
    end
  else if label == "TIME OF FIRST OBS" then
    Next 0 (set_time_first (strip (slice 0 60 line)) h)
  else if label == "TIME OF LAST OBS" then
    Next 0 (set_time_last (strip (slice 0 60 line)) h)
  else if label == "END OF HEADER" then
    Break (set_header_end_line i h)
  else Next 0 h.

(** The outer [while i < len(lines)]. [rest] is [lines[i:]]; [skip] is
    the number of lines at the front of [rest] that the inner loop has
    already moved [i] across, so that they are passed over without being
    dispatched. *)
Fixpoint parse_loop (skip i : nat) (rest : list string) (h : header)
    : result header :=
  match rest with
  | [] => Ok h
  | line :: rest' =>
      match skip with
      | S k => parse_loop k (S i) rest' h
      | 0 =>
          match header_record i line rest' h with
          | Next k h' => parse_loop k (S i) rest' h'
          | Break h' => Ok h'
          | Fail e => Raise e
          end
      end
  end.

Definition _parse_rinex3_header (lines : list string) : result header :=
  parse_loop 0 0 lines initial_header.

(** ** [_build_obs_type_mapping] *)

Fixpoint build_loop (idx : nat) (gps_types : list string)
    (rnx2_types : list string) (seen : gset string)
    (mapping : gmap nat (option string))
    : list string * gmap nat (option string) :=
  match gps_types with
  | [] => (rnx2_types, mapping)
  | rnx3_type :: tl =>
      let rnx2_type := OBS_MAPPING !! rnx3_type in
      let t := default "" rnx2_type in
      if truthy rnx2_type && negb (bool_decide (t ∈ seen)) then
        build_loop (S idx) tl (rnx2_types ++ [t]) ({[t]} ∪ seen)
          (<[idx := rnx2_type]> mapping)
      else
        build_loop (S idx) tl rnx2_types seen (<[idx := rnx2_type]> mapping)
  end.

Definition gps_types_of (h : header) : list string :=
  default [] (obs_types h !! "G").

Definition _build_obs_type_mapping (h : header)
    : list string * gmap nat (option string) :=
  build_loop 0 (gps_types_of h) [] ∅ ∅.

(** ** [_write_rinex2_header] *)

Definition NL : string := String nl "".

Definition nonempty (s : string) : bool :=
  match s with EmptyString => false | _ => true end.

(** One pass of [for line_idx in range(lines_needed)]: the physical line
    number [line_idx] of the [# / TYPES OF OBSERV] record. *)
Definition obs_type_line (rnx2_types : list string) (line_idx : nat) : string :=
  let num := length rnx2_types in
  let obs_line := if line_idx =? 0 then fmt_d 6 (Z.of_nat num) else "      " in
  let start := line_idx * 9 in
  let end_ := Nat.min (start + 9) num in
  let obs_line :=
    foldl (fun acc j => acc +:+ fmt_rs 6 (nth j rnx2_types ""))
      obs_line (seq start (end_ - start)) in
  ljust 60 obs_line +:+ "# / TYPES OF OBSERV" +:+ NL.

Definition obs_type_lines (rnx2_types : list string) : list string :=
  let num := length rnx2_types in
  let lines_needed := (num + 8) / 9 in
  map (obs_type_line rnx2_types) (seq 0 lines_needed).

Definition _write_rinex2_header (h : header) (rnx2_types : list string)
    : list string :=
  let r := receiver h in
  let a := antenna h in
  let '(px, py, pz) := approx_pos h in
  let '(dh, de, dn) := ant_delta a in
  [ "     2.11           OBSERVATION DATA    " +:+ fmt_s 20 "G"
      +:+ "RINEX VERSION / TYPE" +:+ NL;
    fmt_s 20 "pygamit-bridge" +:+ fmt_s 20 "" +:+ fmt_s 20 ""
      +:+ "PGM / RUN BY / DATE" +:+ NL;
    fmt_s 60 (marker_name h) +:+ "MARKER NAME" +:+ NL ]
  ++ (if nonempty (marker_number h)
      then [ fmt_s 60 (marker_number h) +:+ "MARKER NUMBER" +:+ NL ] else [])
  ++ [ fmt_s 20 (observer h) +:+ fmt_s 40 (agency h)
         +:+ "OBSERVER / AGENCY" +:+ NL;
       fmt_s 20 (rec_serial r) +:+ fmt_s 20 (rec_type r) +:+ fmt_s 20 (rec_version r)
         +:+ "REC # / TYPE / VERS" +:+ NL;
       fmt_s 20 (ant_serial a) +:+ fmt_s 20 (ant_type a) +:+ fmt_s 20 ""
         +:+ "ANT # / TYPE" +:+ NL;
       fmt_f 14 4 px +:+ fmt_f 14 4 py +:+ fmt_f 14 4 pz +:+ fmt_s 18 ""
         +:+ "APPROX POSITION XYZ" +:+ NL;
       fmt_f 14 4 dh +:+ fmt_f 14 4 de +:+ fmt_f 14 4 dn +:+ fmt_s 18 ""
         +:+ "ANTENNA: DELTA H/E/N" +:+ NL;
       "     1     1" +:+ fmt_s 48 "" +:+ "WAVELENGTH FACT L1/2" +:+ NL ]
  ++ obs_type_lines rnx2_types
  ++ [ fmt_f 10 3 (interval h) +:+ fmt_s 50 "" +:+ "INTERVAL" +:+ NL ]
  ++ (if nonempty (time_first h)
      then [ fmt_s 60 (time_first h) +:+ "TIME OF FIRST OBS" +:+ NL ] else [])
  ++ (if nonempty (time_last h)
      then [ fmt_s 60 (time_last h) +:+ "TIME OF LAST OBS" +:+ NL ] else [])
  ++ [ fmt_s 60 "" +:+ "END OF HEADER" +:+ NL ].

(** ** [_convert_data] *)

Record epoch := {
  yr : Z; mo : Z; dy : Z; hr : Z; mn : Z; sc : float; flag : Z; num_sats : Z }.

(** The [try] block of an epoch line; [None] when any conversion raises
    [ValueError]. *)
Definition parse_epoch (line : string) : option epoch :=
  yr ← int (slice 2 6 line);
  mo ← int (slice 7 9 line);
  dy ← int (slice 10 12 line);
  hr ← int (slice 13 15 line);
  mn ← int (slice 16 18 line);
  sc ← float_of_str (slice 18 29 line);
  flag ← int (slice 29 32 line);
  num_sats ← int (slice 32 35 line);
  Some {| yr := yr; mo := mo; dy := dy; hr := hr; mn := mn; sc := sc;
          flag := flag; num_sats := num_sats |}.

(** The 16-column fields of one satellite line, one per declared code. *)
Definition sat_values (gps_types : list string) (sat_line : string) : list string :=
  map (fun k =>
         let start_pos := 3 + k * 16 in
         let end_pos := start_pos + 16 in
         if start_pos <? String.length sat_line
         then slice start_pos end_pos sat_line
         else spaces 16)
      (seq 0 (length gps_types)).

(** [for j in range(num_sats)]: [n] passes are left, [rest] holds the lines
    after index [i]. The result is [sats], [sat_data] and the number of
    lines read. *)
Fixpoint collect_sats (gps_types : list string) (n : nat) (rest : list string)
    (sats : list string) (sat_data : gmap string (list string))
    : list string * gmap string (list string) * nat :=
  match n with
  | 0 => (sats, sat_data, 0)
  | S n' =>
      match rest with
      | [] => (sats, sat_data, 0)
      | sat_line :: rest' =>
          let sat_id := strip (slice 0 3 sat_line) in
          let '(sats', sat_data', k) :=
            if negb (startswith "G" sat_id) then
              collect_sats gps_types n' rest' sats sat_data
            else
              collect_sats gps_types n' rest' (sats ++ [sat_id])
                (<[sat_id := sat_values gps_types sat_line]> sat_data) in
          (sats', sat_data', S k)
      end
  end.

(** The fixed part of the epoch header, up to the satellite count. *)
Definition epoch_prefix (ep : epoch) (nsats : nat) : string :=
  " " +:+ fmt_d 2 (yr ep mod 100)%Z +:+ " " +:+ fmt_d 2 (mo ep)
  +:+ " " +:+ fmt_d 2 (dy ep) +:+ " " +:+ fmt_d 2 (hr ep)
  +:+ " " +:+ fmt_d 2 (mn ep) +:+ fmt_f 11 7 (sc ep)
  +:+ "  " +:+ fmt_d 1 (flag ep) +:+ fmt_d 3 (Z.of_nat nsats).

(** [for k, sat in enumerate(sats)]: the ids appended to [epoch_hdr]. *)
Fixpoint add_sat_ids (nsats k : nat) (sats : list string) (epoch_hdr : string)
    : string :=
  match sats with
  | [] => epoch_hdr
  | sat :: tl =>
      let epoch_hdr := epoch_hdr +:+ fmt_rs 3 sat in
      if ((k + 1) mod 12 =? 0) && (k + 1 <? nsats) then
        add_sat_ids nsats (S k) tl (epoch_hdr +:+ NL +:+ spaces 32)
      else add_sat_ids nsats (S k) tl epoch_hdr
  end.

Definition epoch_hdr (ep : epoch) (sats : list string) : string :=
  add_sat_ids (length sats) 0 sats (epoch_prefix ep (length sats)).

(** The first source index whose mapping is [rnx2_type]: the inner
    [for idx, rnx3_type in enumerate(gps_types)] up to its [break]. *)
Definition first_source (gps_types : list string)
    (mapping : gmap nat (option string)) (rnx2_type : string) : option nat :=
  List.find (fun idx => bool_decide (mapping !! idx = Some (Some rnx2_type)))
    (seq 0 (length gps_types)).

Definition rnx2_value (gps_types : list string)
    (mapping : gmap nat (option string)) (values : list string)
    (rnx2_type : string) : string :=
  match first_source gps_types mapping rnx2_type with
  | Some idx => if idx <? length values then nth idx values "" else spaces 16
  | None => spaces 16
  end.

(** [num_part], [lli] and [sig] of one value, concatenated. *)
Definition fmt_value (val : string) : string :=
  let val_str := if 0 <? String.length val then rstrip val else "" in
  if 14 <=? String.length val_str then
    slice 0 14 val_str
    +:+ (if 14 <? String.length val_str then slice 14 15 val_str else " ")
    +:+ (if 15 <? String.length val_str then slice 15 16 val_str else " ")
  else if 0 <? String.length val_str then
    fmt_rs 14 val_str +:+ " " +:+ " "
  else spaces 14 +:+ " " +:+ " ".

(** [for k, val in enumerate(rnx2_values)] and the final flush. *)
Fixpoint obs_writes (k : nat) (vals : list string) (obs_line : string)
    : list string :=
  match vals with
  | [] => if nonempty obs_line then [obs_line +:+ NL] else []
  | val :: tl =>
      let obs_line := obs_line +:+ fmt_value val in
      if (k + 1) mod 5 =? 0 then (obs_line +:+ NL) :: obs_writes (S k) tl ""
      else obs_writes (S k) tl obs_line
  end.

(** The observation lines of one satellite. Every id of [sats] is a key
    of [sat_data], so [sat_data[sat]] cannot raise. *)
Definition sat_writes (gps_types rnx2_types : list string)
    (mapping : gmap nat (option string))
    (sat_data : gmap string (list string)) (sat : string) : list string :=
  let values := default [] (sat_data !! sat) in
  let rnx2_values := map (rnx2_value gps_types mapping values) rnx2_types in
  obs_writes 0 rnx2_values "".

Definition emit_epoch (gps_types rnx2_types : list string)
    (mapping : gmap nat (option string)) (ep : epoch) (sats : list string)
    (sat_data : gmap string (list string)) : list string :=
  (epoch_hdr ep sats +:+ NL)
  :: flat_map (sat_writes gps_types rnx2_types mapping sat_data) sats.

(** The [while i < len(lines)] loop. [rest] is [lines[i:]] and [skip] the
    number of satellite lines the [for] loop has already read from its
    front. *)
Fixpoint convert_loop (gps_types rnx2_types : list string)
    (mapping : gmap nat (option string)) (skip : nat) (rest : list string)
    : list string :=
  match rest with
  | [] => []
  | line :: rest' =>
      match skip with
      | S k => convert_loop gps_types rnx2_types mapping k rest'
      | 0 =>
          if startswith ">" line then
            match parse_epoch line with
            | None => convert_loop gps_types rnx2_types mapping 0 rest'
            | Some ep =>
                let '(sats, sat_data, k) :=
                  collect_sats gps_types (Z.to_nat (num_sats ep)) rest' [] ∅ in
                match sats with
                | [] => convert_loop gps_types rnx2_types mapping k rest'
                | _ =>
                    emit_epoch gps_types rnx2_types mapping ep sats sat_data
                    ++ convert_loop gps_types rnx2_types mapping k rest'
                end
            end
          else convert_loop gps_types rnx2_types mapping 0 rest'
      end
  end.

Definition _convert_data (lines : list string) (data_start : nat) (h : header)
    (rnx2_types : list string) (mapping : gmap nat (option string))
    : list string :=
  convert_loop (gps_types_of h) rnx2_types mapping 0 (drop data_start lines).

(** ** [convert_rinex3_to_rinex2] *)

(** [input_file] is the text of the input file. The second component of
    the result is the output file: [None] when it was never opened,
    otherwise the text it holds when the call ends. The two paths name
    different files. *)
Definition convert_rinex3_to_rinex2 (input_file : string)
    : result bool * option string :=
  let lines := readlines input_file in
  match lines with
  | [] => (Raise IndexError, None)
  | line0 :: _ =>
      if negb (startswith "3" (strip (slice 0 9 line0))) then
        (Ok true, Some input_file)
      else
        match _parse_rinex3_header lines with
        | Raise e => (Raise e, None)
        | Ok h =>
            let '(rnx2_types, mapping) := _build_obs_type_mapping h in
            match rnx2_types with
            | [] => (Ok false, None)
            | _ =>
                (Ok true,
                 Some (join (_write_rinex2_header h rnx2_types
                             ++ _convert_data lines (header_end_line h + 1)
                                  h rnx2_types mapping)))
            end
        end
  end.

End Converter.

(** ** A decimal instance of [PyFloat]

    Used to run the converter on concrete files. A value is a scaled
    integer [m / 10^k]. The instance reads the plain fixed-point literals
    found in RINEX files (optional sign, digits, optional fraction) and
    prints with the requested number of decimals, rounding half to even.
    The theorems below hold for every instance of [PyFloat]. *)

Module DecimalFloat.
Import Py.

Record t := { mant : Z; scale : nat }.

Fixpoint plain_digits (acc : Z) (n : nat) (s : string) : option (Z * nat * string) :=
  match s with
  | EmptyString => Some (acc, n, s)
  | String c s' =>
      match Ascii.is_nat c with
      | Some d => plain_digits (10 * acc + Z.of_nat d)%Z (S n) s'
      | None => Some (acc, n, s)
      end
  end.

Definition unsigned (s : string) : option t :=
  '(ip, n1, s1) ← plain_digits 0%Z 0 s;
  match s1 with
  | EmptyString => if 0 <? n1 then Some {| mant := ip; scale := 0 |} else None
  | String "." s2 =>
      '(m, n2, s3) ← plain_digits ip 0 s2;
      match s3 with
      | EmptyString =>
          if 0 <? n1 + n2 then Some {| mant := m; scale := n2 |} else None
      | _ => None
      end
  | _ => None
  end.

Definition of_str (s : string) : option t :=
  match strip_num s with
  | String "-" u => (fun x => {| mant := - mant x; scale := scale x |}) <$> unsigned u
  | String "+" u => unsigned u
  | u => unsigned u
  end.

(** [x] scaled to [p] decimals, rounded half to even. *)
Definition scaled (p : nat) (x : t) : Z :=
  if scale x <=? p then (mant x * 10 ^ Z.of_nat (p - scale x))%Z
  else
    let d := (10 ^ Z.of_nat (scale x - p))%Z in
    let q := (mant x / d)%Z in
    let r := (2 * (mant x mod d))%Z in
    if (r <? d)%Z then q
    else if (d <? r)%Z then (q + 1)%Z
    else if Z.even q then q else (q + 1)%Z.

Fixpoint zeros (n : nat) : string :=
  match n with 0 => EmptyString | S n' => String "0" (zeros n') end.

Definition fmt (w p : nat) (x : t) : string :=
  let q := scaled p x in
  let a := Z.abs q in
  let ip := pretty (a / 10 ^ Z.of_nat p)%Z in
  let fp := pretty (a mod 10 ^ Z.of_nat p)%Z in
  let body :=
    if p =? 0 then ip
    else ip +:+ "." +:+ zeros (p - String.length fp) +:+ fp in
  rjust w ((if (q <? 0)%Z then "-" else "") +:+ body).

End DecimalFloat.

#[global] Instance decimal_float : PyFloat := {|
  float := DecimalFloat.t;
  float_of_str := DecimalFloat.of_str;
  float_of_Z := fun z => {| DecimalFloat.mant := z; DecimalFloat.scale := 0 |};
  fmt_f := DecimalFloat.fmt |}.

(** ** Words of the specification *)

(** "Wrapping at [n] per physical line": the successive groups of at most
    [n] entries. *)
Fixpoint chunks_fuel {A} (fuel n : nat) (l : list A) : list (list A) :=
  match fuel with
  | 0 => []
  | S fuel' =>
      match l with
      | [] => []
      | _ => take n l :: chunks_fuel fuel' n (drop n l)
      end
  end.

Definition chunks {A} (n : nat) (l : list A) : list (list A) :=
  chunks_fuel (length l) n l.

(** Groups joined by a separator. *)
Fixpoint join_sep (sep : string) (l : list string) : string :=
  match l with
  | [] => ""
  | [g] => g
  | g :: tl => g +:+ sep +:+ join_sep sep tl
  end.

(** A source position [p] of the declared codes [gps] whose code the
    table translates to the target code [t]. *)
Definition source_of (gps : list string) (t : string) (p : nat) : Prop :=
  exists c, gps !! p = Some c /\ OBS_MAPPING !! c = Some t.

(** "Insertion order = order of first-seen mapping": of two target codes,
    the one listed first has a source before every source of the other. *)
Definition first_seen_order (gps rnx2_types : list string) : Prop :=
  forall i j t1 t2,
    i < j -> rnx2_types !! i = Some t1 -> rnx2_types !! j = Some t2 ->
    exists p, source_of gps t1 p /\ forall q, source_of gps t2 q -> p < q.

(** What the loop of [_build_obs_type_mapping] maintains: [pre] are the
    declared codes already visited, [acc] the target codes so far. *)
Definition mapper_inv (pre acc : list string) : Prop :=
  NoDup acc
  /\ (forall t, t ∈ acc <-> exists p, source_of pre t p)
  /\ first_seen_order pre acc.

(** Entries side by side, each right-justified in a slot of [w] columns. *)
Definition columns (w : nat) (g : list string) : string :=
  Py.join (map (Py.fmt_rs w) g).

(** The separator of the epoch header's continuation lines: a line break
    and an indentation to column 32. *)
Definition continuation_indent : string := NL +:+ Py.spaces 32.

(** Physical line number [i] of the code-count-and-list record, carrying
    the codes [g]: the count in the first line, a blank count field in the
    others. *)
Definition code_record_line (num i : nat) (g : list string) : string :=
  Py.ljust 60 ((if i =? 0 then Py.fmt_d 6 (Z.of_nat num) else "      ")
               +:+ columns 6 g)
  +:+ "# / TYPES OF OBSERV" +:+ NL.

(** One physical observation line: its triples, then a line break. *)
Definition obs_record_line (g : list string) : string := Py.join g +:+ NL.

Section EpochWords.
Context `{PyFloat}.

(** A well-formed epoch: a start line that parses, followed by as many
    satellite lines as it declares. *)
Definition well_formed_epoch (line : string) (ep : epoch)
    (sat_lines : list string) : Prop :=
  Py.startswith ">" line = true
  /\ parse_epoch line = Some ep
  /\ num_sats ep = Z.of_nat (length sat_lines).

(** What one epoch contributes to the output: nothing when no satellite is
    retained, its header and observation lines otherwise. *)
Definition epoch_output (gps_types rnx2_types : list string)
    (mapping : gmap nat (option string)) (ep : epoch)
    (sat_lines : list string) : list string :=
  let '(sats, sat_data, _) :=
    collect_sats gps_types (length sat_lines) sat_lines [] ∅ in
  match sats with
  | [] => []
  | _ => emit_epoch gps_types rnx2_types mapping ep sats sat_data
  end.

(** The epochs for which [convert_loop] reaches the emission, with the
    satellites retained for each: the same scan, recording instead of
    writing. *)
Fixpoint retained_epochs (gps_types : list string) (skip : nat)
    (rest : list string)
    : list (epoch * list string * gmap string (list string)) :=
  match rest with
  | [] => []
  | line :: rest' =>
      match skip with
      | S k => retained_epochs gps_types k rest'
      | 0 =>
          if Py.startswith ">" line then
            match parse_epoch line with
            | None => retained_epochs gps_types 0 rest'
            | Some ep =>
                let '(sats, sat_data, k) :=
                  collect_sats gps_types (Z.to_nat (num_sats ep)) rest' [] ∅ in
                match sats with
                | [] => retained_epochs gps_types k rest'
                | _ => (ep, sats, sat_data) :: retained_epochs gps_types k rest'
                end
            end
          else retained_epochs gps_types 0 rest'
      end
  end.

End EpochWords.

(** ** Sample files *)

(** A header record: content zone padded to column 60, then the label. *)
Definition header_line (content label : string) : string :=
  Py.ljust 60 content +:+ label +:+ NL.

Definition version3_line : string :=
  header_line "     3.04           OBSERVATION DATA    M" "RINEX VERSION / TYPE".

(** A version 3 file whose header is never terminated. *)
Definition file_no_terminator : string :=
  version3_line
  +:+ header_line "G    2 C1C L1C" "SYS / # / OBS TYPES"
  +:+ "> 2023 01 01 00 00  0.0000000  0  1" +:+ NL
  +:+ "G01  20000000.123 7 105000000.456 8" +:+ NL.

(** A version 3 file whose observation-type count is not a number. *)
Definition file_bad_count : string :=
  version3_line
  +:+ header_line "G   xx C1C L1C" "SYS / # / OBS TYPES"
  +:+ header_line "" "END OF HEADER".

(** A version 3 file that declares codes for GLONASS only. *)
Definition file_no_gps : string :=
  version3_line
  +:+ header_line "R    2 C1C L1C" "SYS / # / OBS TYPES"
  +:+ header_line "" "END OF HEADER".

(** A version 3 file whose GPS codes have no RINEX 2 name. *)
Definition file_unmapped_gps : string :=
  version3_line
  +:+ header_line "G    2 C1Z L9Q" "SYS / # / OBS TYPES"
  +:+ header_line "" "END OF HEADER".

(** A RINEX 2 file. *)
Definition file_version2 : string :=
  header_line "     2.11           OBSERVATION DATA    G" "RINEX VERSION / TYPE"
  +:+ header_line "" "END OF HEADER".

(** Header records for the continuation scan: a declaration of three
    codes that supplies two, a marker name, and the terminator. *)
Definition short_sys_line : string :=
  header_line "G    3 C1C L1C" "SYS / # / OBS TYPES".

Definition marker_line : string := header_line "ABCD" "MARKER NAME".

Definition end_line : string := header_line "" "END OF HEADER".

(** Data records: two well-formed epochs around an epoch line whose year
    is not a number. The header declares two GPS codes. *)
Definition epoch1_line : string :=
  "> 2023 01 01 00 00  0.0000000  0  2" +:+ NL.
Definition epoch1_sats : list string :=
  [ "G01  20000000.123 7 105000000.456 8" +:+ NL;
    "R02  19000000.500 6 101000000.250 7" +:+ NL ].
Definition bad_epoch_line : string :=
  "> 20X3 01 01 00 00 30.0000000  0  1" +:+ NL.
Definition bad_epoch_sats : list string :=
  [ "G05  21000000.000 5 110000000.000 5" +:+ NL ].
Definition epoch2_line : string :=
  "> 2023 01 01 00 01  0.0000000  0  1" +:+ NL.
Definition epoch2_sats : list string :=
  [ "G07  22000000.750 8" +:+ NL ].

(** An epoch line whose year field starts with the separator U+001C:
    [str.strip] would drop the character, [int] does not accept it. *)
Definition separator_epoch_line : string :=
  "> " +:+ String "028" "023 01 01 00 00  0.0000000  0  1" +:+ NL.

Definition sample_data : list string :=
  (epoch1_line :: epoch1_sats)
  ++ bad_epoch_line :: bad_epoch_sats ++ (epoch2_line :: epoch2_sats).

Definition sample_header : header :=
  set_obs_types (<[ "G" := ["C1C"; "L1C"] ]> ∅) initial_header.

Definition sample_mapping : gmap nat (option string) :=
  <[ 1 := Some "L1" ]> (<[ 0 := Some "C1" ]> ∅).

Definition sample_data_output : string :=
  " 23  1  1  0  0  0.0000000  0  1G01" +:+ NL
  +:+ "  20000000.123 7 105000000.456 8" +:+ NL
  +:+ " 23  1  1  0  1  0.0000000  0  1G07" +:+ NL
  +:+ "  22000000.750 8                " +:+ NL.

(** Lists long enough to wrap twice. *)
Definition codes23 : list string :=
  ["C1"; "L1"; "D1"; "S1"; "P1"; "C2"; "L2"; "D2"; "S2"; "P2"; "C5"; "L5";
   "D5"; "S5"; "A1"; "A2"; "A3"; "A4"; "A5"; "A6"; "A7"; "A8"; "A9"].

Definition sats25 : list string :=
  ["G01"; "G02"; "G03"; "G04"; "G05"; "G06"; "G07"; "G08"; "G09"; "G10";
   "G11"; "G12"; "G13"; "G14"; "G15"; "G16"; "G17"; "G18"; "G19"; "G20";
   "G21"; "G22"; "G23"; "G24"; "G25"].

Definition sample_epoch : epoch :=
  {| yr := 2023; mo := 1; dy := 1; hr := 0; mn := 0;
     sc := {| DecimalFloat.mant := 0; DecimalFloat.scale := 7 |};
     flag := 0; num_sats := 25 |}.

(** A retained satellite id: it starts with 'G' and fills at most three
    columns. *)
Definition retained_id (s : string) : Prop :=
  Py.startswith "G" s = true /\ String.length s <= 3.

(** A continuation line that supplies the third code of
    [short_sys_line]. *)
Definition sys_continuation_line : string :=
  header_line "       S1C" "SYS / # / OBS TYPES".

(** The tokens of a declaration line or of a continuation line. *)
Definition code_tokens (line : string) : list string :=
  Py.split (Py.slice 7 60 line).

(** The RINEX 2 codes that occur in [OBS_MAPPING]. *)
Definition legacy_codes : list string :=
  ["C1"; "P1"; "L1"; "D1"; "S1"; "C2"; "P2"; "L2"; "D2"; "S2";
   "C5"; "L5"; "D5"; "S5"].

(** The satellite id of a data line: [sat_line[0:3].strip()]. *)
Definition sat_id_of (sat_line : string) : string :=
  Py.strip (Py.slice 0 3 sat_line).

(** An epoch that declares three satellites and is cut off after two
    lines, the second a repetition of the first satellite. *)
Definition cut_epoch_line : string :=
  "> 2023 01 01 00 00  0.0000000  0  3" +:+ NL.
Definition cut_sat_first : string :=
  "G01  20000000.123 7 105000000.456 8" +:+ NL.
Definition cut_sat_second : string :=
  "G01  20000009.999 7 105000009.999 8" +:+ NL.
Definition cut_epoch_sats : list string := [cut_sat_first; cut_sat_second].

Definition cut_epoch : epoch :=
  {| yr := 2023; mo := 1; dy := 1; hr := 0; mn := 0;
     sc := {| DecimalFloat.mant := 0; DecimalFloat.scale := 7 |};
     flag := 0; num_sats := 3 |}.

Definition cut_epoch_text : string :=
  " 23  1  1  0  0  0.0000000  0  2G01G01" +:+ NL
  +:+ "  20000009.999 7 105000009.999 8" +:+ NL
  +:+ "  20000009.999 7 105000009.999 8" +:+ NL.

(** Three declared codes of which the first two have the same target
    code, and the fields of two lines that differ in the second column
    only. *)
Definition twin_codes : list string := ["C1C"; "C1X"; "L1C"].
Definition twin_mapping : gmap nat (option string) :=
  <[ 2 := Some "L1" ]> (<[ 1 := Some "C1" ]> (<[ 0 := Some "C1" ]> ∅)).
Definition twin_values : list string :=
  [ "  20000000.123 7"; "  20000000.456 7"; " 105000000.456 8" ].
Definition twin_values' : list string :=
  [ "  20000000.123 7"; "  29999999.999 1"; " 105000000.456 8" ].

(** A text without line break characters. *)
Fixpoint no_line_break (s : string) : bool :=
  match s with
  | EmptyString => true
  | String c s' =>
      negb (Ascii.eqb c Py.nl) && negb (Ascii.eqb c Py.cr) && no_line_break s'
  end.

(** The first record of every header that is written, without its line
    break. *)
Definition version2_record : string :=
  "     2.11           OBSERVATION DATA    " +:+ Py.fmt_s 20 "G"
  +:+ "RINEX VERSION / TYPE".

(** A text field of a header: no white space around it, and at most [w]
    characters. *)
Definition text_field (w : nat) (s : string) : Prop :=
  Py.lstrip s = s /\ Py.rstrip s = s /\ String.length s <= w.

Section HeaderWords.
Context `{PyFloat}.

(** Every text field of the header fits the columns it is read from. *)
Definition text_fields_ok (h : header) : Prop :=
  text_field 9 (version h)
  /\ text_field 1 (type_ h)
  /\ text_field 1 (system h)
  /\ text_field 60 (marker_name h)
  /\ text_field 20 (marker_number h)
  /\ text_field 20 (observer h)
  /\ text_field 20 (agency h)
  /\ text_field 20 (rec_serial (receiver h))
  /\ text_field 20 (rec_type (receiver h))
  /\ text_field 20 (rec_version (receiver h))
  /\ text_field 20 (ant_serial (antenna h))
  /\ text_field 20 (ant_type (antenna h))
  /\ text_field 60 (time_first h)
  /\ text_field 60 (time_last h).

(** Every number of the header prints within the columns of its format. *)
Definition float_fields_fit (h : header) : Prop :=
  let '(px, py, pz) := approx_pos h in
  let '(dh, de, dn) := ant_delta (antenna h) in
  Forall (fun x => String.length (fmt_f 14 4 x) = 14) [px; py; pz; dh; de; dn]
  /\ String.length (fmt_f 10 3 (interval h)) = 10.

End HeaderWords.

(** A header with every text record, as a version 3 file has it. *)
Definition full_header_lines : list string :=
  [ version3_line;
    header_line "ABCD                                                        " "MARKER NAME";
    header_line "66001M003" "MARKER NUMBER";
    header_line "someone             some agency" "OBSERVER / AGENCY";
    header_line "1234567             RECEIVER X          1.2.3" "REC # / TYPE / VERS";
    header_line "7654321             ANTENNA Y       NONE" "ANT # / TYPE";
    header_line "  2023    01    01    00    00    0.0000000     GPS" "TIME OF FIRST OBS";
    end_line ].

(** A header in which the text fields are set, with texts of several
    lengths. *)
Definition full_header : header :=
  set_time_first "2023    01    01    00    00    0.0000000     GPS"
    (set_antenna {| ant_serial := "7654321"; ant_type := "ANTENNA Y";
                    ant_delta := ant_delta (antenna initial_header) |}
       (set_receiver {| rec_serial := "1234567"; rec_type := "RECEIVER X";
                        rec_version := "1.2.3" |}
          (set_observer_agency "someone" "some agency"
             (set_marker_number "66001M003"
                (set_marker_name "ABCD" initial_header))))).

(** Arithmetic with quotients and remainders by a constant. *)
Ltac mod_lia := intros; zify; Z.to_euclidean_division_equations; lia.

(** ** Strings *)

Section Strings.
Import Py.

Lemma str_app_cons c s t : String c s +:+ t = String c (s +:+ t).
Proof. reflexivity. Qed.

Lemma str_app_nil_r s : s +:+ "" = s.
Proof. induction s as [|c s IH]; [done|]. by rewrite str_app_cons, IH. Qed.

Lemma str_app_assoc a b c : (a +:+ b) +:+ c = a +:+ (b +:+ c).
Proof. induction a as [|x a IH]; [done|]. by rewrite !str_app_cons, IH. Qed.

Lemma str_length_app a b :
  String.length (a +:+ b) = String.length a + String.length b.
Proof. induction a as [|x a IH]; [done|]. rewrite str_app_cons. simpl. lia. Qed.

Lemma length_spaces n : String.length (spaces n) = n.
Proof. induction n; simpl; lia. Qed.

Lemma length_str_take n s :
  String.length (str_take n s) = Nat.min n (String.length s).
Proof.
  revert s. induction n as [|n IH]; intros [|c s]; simpl; try done.
  by rewrite IH.
Qed.

Lemma length_str_drop n s :
  String.length (str_drop n s) = String.length s - n.
Proof.
  revert s. induction n as [|n IH]; intros [|c s]; simpl; try done.
Qed.

Lemma length_slice a b s :
  String.length (slice a b s) = Nat.min (b - a) (String.length s - a).
Proof. unfold slice. by rewrite length_str_take, length_str_drop. Qed.

Lemma length_rev_app a b :
  String.length (String.rev_app a b) = String.length a + String.length b.
Proof.
  revert b. induction a as [|c a IH]; intros b; simpl; [done|].
  rewrite IH. simpl. lia.
Qed.

Lemma length_rev s : String.length (String.rev s) = String.length s.
Proof. unfold String.rev. rewrite length_rev_app. simpl. lia. Qed.

Lemma length_lstrip s : String.length (lstrip s) <= String.length s.
Proof.
  induction s as [|c s IH]; simpl; [done|].
  destruct (isspace c); simpl; lia.
Qed.

Lemma length_rstrip s : String.length (rstrip s) <= String.length s.
Proof.
  unfold rstrip. rewrite length_rev.
  etrans; [apply length_lstrip|]. by rewrite length_rev.
Qed.

Lemma length_strip s : String.length (strip s) <= String.length s.
Proof.
  unfold strip. etrans; [apply length_rstrip|]. apply length_lstrip.
Qed.

Lemma length_rjust w s :
  String.length (rjust w s) = Nat.max w (String.length s).
Proof. unfold rjust. rewrite str_length_app, length_spaces. lia. Qed.

Lemma length_ljust w s :
  String.length (ljust w s) = Nat.max w (String.length s).
Proof. unfold ljust. rewrite str_length_app, length_spaces. lia. Qed.

Lemma nonempty_length s : nonempty s = (0 <? String.length s).
Proof. by destruct s. Qed.

Lemma join_app l1 l2 : join (l1 ++ l2) = join l1 +:+ join l2.
Proof.
  induction l1 as [|x l1 IH]; simpl; [done|].
  by rewrite IH, str_app_assoc.
Qed.

Lemma startswith_nonempty p c s :
  startswith (String c p) s = true -> s <> "".
Proof. by destruct s. Qed.

End Strings.

(** ** Wrapping into groups *)

Section Chunks.
Context {A : Type}.
Implicit Types l : list A.

Lemma chunks_fuel_enough f1 f2 n l :
  0 < n -> length l <= f1 -> length l <= f2 ->
  chunks_fuel f1 n l = chunks_fuel f2 n l.
Proof.
  intros Hn. revert f2 l. induction f1 as [|f1 IH]; intros f2 l H1 H2.
  - destruct l; simpl in *; [by destruct f2 | lia].
  - destruct f2 as [|f2].
    + destruct l; simpl in *; [done | lia].
    + destruct l as [|x l]; [done|]. cbn [chunks_fuel]. f_equal.
      apply IH; rewrite length_drop; simpl in *; lia.
Qed.

Lemma chunks_nil n : chunks n (@nil A) = [].
Proof. done. Qed.

Lemma chunks_unfold n l :
  0 < n -> l <> [] -> chunks n l = take n l :: chunks n (drop n l).
Proof.
  intros Hn Hl. unfold chunks. destruct l as [|x l]; [done|].
  cbn [length chunks_fuel]. f_equal.
  apply chunks_fuel_enough; [done|..]; rewrite ?length_drop; simpl; lia.
Qed.

Lemma chunks_short n l :
  0 < n -> l <> [] -> length l <= n -> chunks n l = [l].
Proof.
  intros Hn Hl Hle. rewrite chunks_unfold by done.
  rewrite take_ge by done. rewrite drop_ge by done. done.
Qed.

(** Induction along the groups. *)
Lemma chunks_ind n (Hn : 0 < n) (P : list A -> Prop) :
  P [] ->
  (forall l, l <> [] -> P (drop n l) -> P l) ->
  forall l, P l.
Proof.
  intros H0 Hstep l.
  remember (length l) as m eqn:Hm. revert l Hm.
  induction m as [m IH] using lt_wf_ind. intros l ->.
  destruct l as [|x l]; [done|]. apply Hstep; [done|].
  eapply IH; [|done]. rewrite length_drop. simpl. lia.
Qed.

Lemma concat_chunks n l : 0 < n -> concat (chunks n l) = l.
Proof.
  intros Hn. induction l as [|l Hl IH] using (chunks_ind n Hn); [done|].
  rewrite chunks_unfold by done. simpl. rewrite IH. apply take_drop.
Qed.

Lemma chunks_bounds n l :
  0 < n -> Forall (fun g => 0 < length g <= n) (chunks n l).
Proof.
  intros Hn. induction l as [|l Hl IH] using (chunks_ind n Hn).
  { constructor. }
  rewrite chunks_unfold by done. constructor; [|done].
  rewrite length_take. destruct l; [done|]. simpl. lia.
Qed.

Lemma chunks_lookup n l i :
  0 < n -> i * n < length l ->
  chunks n l !! i = Some (take n (drop (i * n) l)).
Proof.
  intros Hn. revert l. induction i as [|i IH]; intros l Hi.
  - destruct l; [simpl in *; lia|]. by rewrite chunks_unfold.
  - assert (l <> []) by (destruct l; [simpl in *; lia | done]).
    rewrite chunks_unfold by done. simpl lookup.
    rewrite IH by (rewrite length_drop; lia).
    rewrite drop_drop. done.
Qed.

Lemma length_chunks n l :
  0 < n -> length (chunks n l) = (length l + n - 1) / n.
Proof.
  intros Hn. induction l as [|l Hl IH] using (chunks_ind n Hn).
  { simpl. symmetry. apply Nat.div_small. lia. }
  rewrite chunks_unfold by done. simpl. rewrite IH, length_drop.
  assert (0 < length l) by (destruct l; [done | simpl; lia]).
  destruct (decide (length l <= n)) as [Hle|Hgt].
  - replace (length l - n) with 0 by lia. simpl.
    rewrite (Nat.div_small (n - 1)) by lia.
    apply (Nat.div_unique _ _ 1 (length l - 1)); lia.
  - replace (length l + n - 1) with ((length l - n + n - 1) + 1 * n) by lia.
    rewrite Nat.div_add by lia. lia.
Qed.

End Chunks.

(** ** The entry point *)

Section Header.
Context `{PyFloat}.
Import Py.

Lemma eqb_true a b : (a == b) = true -> a = b.
Proof. apply String.eqb_eq. Qed.

(** Only the terminator record assigns [header_end_line], and only it
    leaves the loop. *)
Lemma header_record_end_line i line rest h :
  label_of line <> "END OF HEADER" ->
  match header_record i line rest h with
  | Next _ h' => header_end_line h' = header_end_line h
  | Break _ => False
  | Fail _ => True
  end.
Proof.
  intros Hl. unfold header_record.
  generalize dependent (label_of line). intros lbl Hl.
  repeat match goal with
  | |- context [if lbl == ?s then _ else _] =>
      destruct (lbl == s) eqn:?;
      [ first [ reflexivity
              | exfalso; apply Hl; by apply eqb_true
              | destruct (three_floats line); reflexivity
              | destruct (float_of_str _); reflexivity
              | idtac ] |]
  end.
  - destruct (int _); [|exact I].
    destruct (scan_continuation _ _ _). reflexivity.
  - reflexivity.
Qed.

Lemma parse_loop_end_line skip i rest h h' :
  Forall (fun l => label_of l <> "END OF HEADER") rest ->
  parse_loop skip i rest h = Ok h' ->
  header_end_line h' = header_end_line h.
Proof.
  intros Hall. revert skip i h.
  induction Hall as [|line rest Hl Hall IH]; intros skip i h; cbn [parse_loop].
  { by intros [= ->]. }
  destruct skip as [|k]; [|by apply IH].
  pose proof (header_record_end_line i line rest h Hl) as Hrec.
  destruct (header_record i line rest h) as [k h1| |]; [|done..].
  intros Hp. apply IH in Hp. congruence.
Qed.

Lemma build_loop_unmapped idx gps acc seen m :
  Forall (fun c => OBS_MAPPING !! c = None) gps ->
  (build_loop idx gps acc seen m).1 = acc.
Proof.
  intros Hall. revert idx m.
  induction Hall as [|c gps Hc Hall IH]; intros idx m; cbn [build_loop]; [done|].
  rewrite Hc. cbn [truthy andb]. apply IH.
Qed.

(** C4: a file whose first line's version field does not start with '3' is
    copied unchanged to the output, and the call reports success. *)
Theorem pass_through_copies_input input_file line0 rest :
  readlines input_file = line0 :: rest ->
  startswith "3" (strip (slice 0 9 line0)) = false ->
  convert_rinex3_to_rinex2 input_file = (Ok true, Some input_file).
Proof.
  intros Hl Hv. unfold convert_rinex3_to_rinex2. by rewrite Hl, Hv.
Qed.

(** C3: when 'G' is absent from the parsed header, or none of its declared
    codes is in the translation table, the call reports failure and the
    output file is never opened. *)
Theorem no_mapped_code_fails input_file line0 rest h :
  readlines input_file = line0 :: rest ->
  startswith "3" (strip (slice 0 9 line0)) = true ->
  _parse_rinex3_header (line0 :: rest) = Ok h ->
  (obs_types h !! "G" = None \/
   exists codes, obs_types h !! "G" = Some codes /\
                 Forall (fun c => OBS_MAPPING !! c = None) codes) ->
  convert_rinex3_to_rinex2 input_file = (Ok false, None).
Proof.
  intros Hl Hv Hp Hg. unfold convert_rinex3_to_rinex2. rewrite Hl, Hv, Hp.
  cbn [negb]. unfold _build_obs_type_mapping.
  assert (Forall (fun c => OBS_MAPPING !! c = None) (gps_types_of h)) as Hall.
  { unfold gps_types_of. destruct Hg as [-> | (codes & -> & Hall)]; [constructor | done]. }
  pose proof (build_loop_unmapped 0 _ [] ∅ ∅ Hall) as Hb.
  destruct (build_loop 0 (gps_types_of h) [] ∅ ∅) as [types mapping].
  cbn [fst] in Hb. by subst types.
Qed.

(** The only record that can fail is the observation-type declaration,
    on its count field. *)
Lemma header_record_fail i line rest h e :
  header_record i line rest h = Fail e ->
  e = ValueError
  /\ label_of line = "SYS / # / OBS TYPES"
  /\ int (strip (slice 3 6 line)) = None.
Proof.
  unfold header_record. remember (label_of line) as lbl eqn:Hlbl.
  repeat match goal with
  | |- context [if lbl == ?s then _ else _] =>
      destruct (lbl == s) eqn:?;
      [ first [ discriminate
              | destruct (three_floats line); discriminate
              | destruct (float_of_str _); discriminate
              | idtac ] |]
  end; [|discriminate].
  destruct (int _); [by destruct (scan_continuation _ _ _)|].
  intros [= <-]. split; [done|]. split; [|done]. by apply eqb_true.
Qed.

(** The float fields of the header are read inside a [try]: a text that
    is not a number leaves the header as it is. *)
Lemma float_field_absorbed i line rest h :
  (label_of line = "APPROX POSITION XYZ" /\ three_floats line = None)
  \/ (label_of line = "ANTENNA: DELTA H/E/N" /\ three_floats line = None)
  \/ (label_of line = "INTERVAL" /\ float_of_str (slice 0 10 line) = None) ->
  header_record i line rest h = Next 0 h.
Proof.
  unfold header_record.
  intros [[-> ->] | [[-> ->] | [-> ->]]]; reflexivity.
Qed.

Lemma parse_loop_raise skip i rest h e :
  parse_loop skip i rest h = Raise e ->
  e = ValueError
  /\ exists line, line ∈ rest
       /\ label_of line = "SYS / # / OBS TYPES"
       /\ int (strip (slice 3 6 line)) = None.
Proof.
  revert skip i h. induction rest as [|line rest IH]; intros skip i h; [done|].
  cbn [parse_loop]. destruct skip as [|k].
  - destruct (header_record i line rest h) as [k h'|h'|e'] eqn:Hrec.
    + intros (-> & l & Hl & Hlab)%IH. split; [done|].
      exists l. split; [by right | done].
    + done.
    + intros [= <-]. apply header_record_fail in Hrec as (-> & Hlab & Hint).
      split; [done|]. exists line. split; [by left | done].
  - intros (-> & l & Hl & Hlab)%IH. split; [done|].
    exists l. split; [by right | done].
Qed.

(** Where the entry point raises instead of returning a boolean: on an
    empty file, and on a count field that is not an integer. No output
    file is opened in either case. *)
Lemma convert_raises_only input_file e out :
  convert_rinex3_to_rinex2 input_file = (Raise e, out) ->
  out = None
  /\ ((readlines input_file = [] /\ e = IndexError)
      \/ (e = ValueError
          /\ exists line, line ∈ readlines input_file
               /\ label_of line = "SYS / # / OBS TYPES"
               /\ int (strip (slice 3 6 line)) = None)).
Proof.
  unfold convert_rinex3_to_rinex2.
  destruct (readlines input_file) as [|line0 rest] eqn:Hl.
  { intros [= <- <-]. split; [done|]. by left. }
  destruct (negb _); [done|].
  destruct (_parse_rinex3_header (line0 :: rest)) as [h|e'] eqn:Hp.
  - destruct (_build_obs_type_mapping h) as [types mapping].
    by destruct types.
  - intros [= <- <-]. split; [done|]. right.
    by apply parse_loop_raise in Hp.
Qed.

(** C2, at the failing input: a count field that is not a number makes
    [int] raise inside the header parser, and the exception leaves the
    entry point. *)
Theorem count_field_error_escapes :
  convert_rinex3_to_rinex2 file_bad_count = (Raise ValueError, None).
Proof. vm_compute. reflexivity. Qed.

(** An empty input file raises as well, at [lines[0]]. *)
Lemma empty_file_raises :
  convert_rinex3_to_rinex2 "" = (Raise IndexError, None).
Proof. reflexivity. Qed.

(** C1, amended: a header without terminator is not an error. The parser
    reads to the end of input and leaves [header_end_line] at 0; the call
    fails only when no target code is mapped, and otherwise writes the
    header and transcodes the lines from index 1 on. *)
Theorem missing_terminator_not_fatal input_file line0 rest h :
  readlines input_file = line0 :: rest ->
  startswith "3" (strip (slice 0 9 line0)) = true ->
  Forall (fun l => label_of l <> "END OF HEADER") (line0 :: rest) ->
  _parse_rinex3_header (line0 :: rest) = Ok h ->
  header_end_line h = 0 /\
  convert_rinex3_to_rinex2 input_file =
    match _build_obs_type_mapping h with
    | ([], _) => (Ok false, None)
    | (rnx2_types, mapping) =>
        (Ok true,
         Some (join (_write_rinex2_header h rnx2_types
                     ++ _convert_data (line0 :: rest) 1 h rnx2_types mapping)))
    end.
Proof.
  intros Hl Hv Hall Hp.
  assert (header_end_line h = 0) as Hend.
  { unfold _parse_rinex3_header in Hp.
    by apply (parse_loop_end_line _ _ _ _ _ Hall) in Hp. }
  split; [done|].
  unfold convert_rinex3_to_rinex2. rewrite Hl, Hv, Hp. cbn [negb].
  destruct (_build_obs_type_mapping h) as [types mapping].
  rewrite Hend. by destruct types.
Qed.

End Header.

Lemma pass_through_copies_input_witness :
  convert_rinex3_to_rinex2 file_version2 = (Ok true, Some file_version2).
Proof.
  eapply (pass_through_copies_input file_version2); reflexivity.
Defined.

Lemma no_mapped_code_fails_witness :
  convert_rinex3_to_rinex2 file_no_gps = (Ok false, None)
  /\ convert_rinex3_to_rinex2 file_unmapped_gps = (Ok false, None).
Proof.
  split.
  - eapply (no_mapped_code_fails file_no_gps);
      [reflexivity | reflexivity | reflexivity | left; vm_compute; reflexivity].
  - eapply (no_mapped_code_fails file_unmapped_gps);
      [reflexivity | reflexivity | reflexivity |].
    right. eexists. split; [vm_compute; reflexivity|].
    repeat (constructor; [vm_compute; reflexivity|]). constructor.
Defined.

(** C1 as stated fails: this file has no terminator record, and the call
    succeeds and writes the output file. *)
Lemma missing_terminator_counterexample :
  Forall (fun l => label_of l <> "END OF HEADER") (Py.readlines file_no_terminator)
  /\ (convert_rinex3_to_rinex2 file_no_terminator).1 = Ok true
  /\ (convert_rinex3_to_rinex2 file_no_terminator).2 <> None.
Proof.
  split; [|split].
  - vm_compute. repeat constructor; discriminate.
  - vm_compute. reflexivity.
  - vm_compute. discriminate.
Qed.

Lemma missing_terminator_not_fatal_witness :
  exists h out,
    _parse_rinex3_header (Py.readlines file_no_terminator) = Ok h
    /\ header_end_line h = 0
    /\ convert_rinex3_to_rinex2 file_no_terminator = (Ok true, Some out).
Proof.
  eexists _, _.
  split; [reflexivity|].
  edestruct (missing_terminator_not_fatal file_no_terminator) as [He Hc];
    [ reflexivity | reflexivity
    | vm_compute; repeat constructor; discriminate
    | reflexivity |].
  split; [exact He|]. rewrite Hc. vm_compute. reflexivity.
Defined.

(** ** The code mapper *)

Section Mapper.
Context `{PyFloat}.
Import Py.

Lemma OBS_MAPPING_nonempty c t : OBS_MAPPING !! c = Some t -> t <> "".
Proof.
  unfold OBS_MAPPING. intros Hin%elem_of_list_to_map_2.
  repeat (apply elem_of_cons in Hin as [[= _ ->]|Hin]; [done|]).
  by apply elem_of_nil in Hin.
Qed.

Lemma truthy_mapped c t : OBS_MAPPING !! c = Some t -> truthy (Some t) = true.
Proof. intros Ht%OBS_MAPPING_nonempty. by destruct t. Qed.

Lemma source_of_snoc pre c t p :
  source_of (pre ++ [c]) t p <->
  source_of pre t p \/ (p = length pre /\ OBS_MAPPING !! c = Some t).
Proof.
  unfold source_of. split.
  - intros (c' & Hp & Ht). apply lookup_app_Some in Hp as [Hp | [Hle Hp]].
    + left. eauto.
    + right. apply list_lookup_singleton_Some in Hp as [Hp <-].
      split; [lia | done].
  - intros [(c' & Hp & Ht) | [-> Ht]].
    + exists c'. split; [|done]. by apply lookup_app_l_Some.
    + exists c. split; [|done].
      rewrite lookup_app_r by done. by rewrite Nat.sub_diag.
Qed.

Lemma source_of_lt gps t p : source_of gps t p -> p < length gps.
Proof. intros (c & Hp & _). by eapply lookup_lt_Some. Qed.

Lemma mapper_inv_nil : mapper_inv [] [].
Proof.
  split; [constructor|]. split.
  - intros t. split; [by intros ?%elem_of_nil|].
    by intros (p & c & Hp & _).
  - by intros i j t1 t2 _ Hi.
Qed.

(** A visited code that adds no column: it is not in the table, or its
    target code is already listed. *)
Lemma mapper_inv_skip pre acc c :
  mapper_inv pre acc ->
  (forall t, OBS_MAPPING !! c = Some t -> t ∈ acc) ->
  mapper_inv (pre ++ [c]) acc.
Proof.
  intros (Hnd & Hmem & Hord) Hc. split; [done|]. split.
  - intros t. rewrite Hmem. split.
    + intros (p & Hp). exists p. apply source_of_snoc. by left.
    + intros (p & [Hp | [-> Ht]]%source_of_snoc); [by exists p|].
      apply Hmem. by apply Hc.
  - intros i j t1 t2 Hij Hi Hj.
    destruct (Hord i j t1 t2 Hij Hi Hj) as (p & Hp & Hq).
    exists p. split; [apply source_of_snoc; by left|].
    intros q [Hq' | [-> _]]%source_of_snoc; [by apply Hq|].
    by apply source_of_lt in Hp.
Qed.

(** A visited code whose target code is new: one column is appended. *)
Lemma mapper_inv_add pre acc c t :
  mapper_inv pre acc ->
  OBS_MAPPING !! c = Some t -> t ∉ acc ->
  mapper_inv (pre ++ [c]) (acc ++ [t]).
Proof.
  intros (Hnd & Hmem & Hord) Hc Hnew. split; [|split].
  - apply NoDup_app. split; [done|]. split; [|apply NoDup_singleton].
    intros x Hx ->%list_elem_of_singleton. done.
  - intros t'. rewrite elem_of_app, Hmem, list_elem_of_singleton. split.
    + intros [(p & Hp) | ->].
      * exists p. apply source_of_snoc. by left.
      * exists (length pre). apply source_of_snoc. by right.
    + intros (p & [Hp | [-> Ht]]%source_of_snoc); [left; by exists p|].
      right. congruence.
  - intros i j t1 t2 Hij Hi Hj.
    apply lookup_app_Some in Hj as [Hj | [Hle Hj]].
    + assert (acc !! i = Some t1) as Hi'.
      { apply lookup_lt_Some in Hj. by rewrite lookup_app_l in Hi by lia. }
      destruct (Hord i j t1 t2 Hij Hi' Hj) as (p & Hp & Hq).
      exists p. split; [apply source_of_snoc; by left|].
      intros q [Hq' | [-> _]]%source_of_snoc; [by apply Hq|].
      by apply source_of_lt in Hp.
    + apply list_lookup_singleton_Some in Hj as [Hj <-].
      assert (acc !! i = Some t1) as Hi' by (by rewrite lookup_app_l in Hi by lia).
      assert (t1 ∈ acc) as (p & Hp)%Hmem by (by eapply list_elem_of_lookup_2).
      exists p. split; [apply source_of_snoc; by left|].
      intros q [Hq' | [-> _]]%source_of_snoc.
      * exfalso. apply Hnew, Hmem. by exists q.
      * by apply source_of_lt in Hp.
Qed.

Lemma build_loop_inv gps pre idx acc seen m :
  (forall t, t ∈ seen <-> t ∈ acc) ->
  mapper_inv pre acc ->
  mapper_inv (pre ++ gps) (build_loop idx gps acc seen m).1.
Proof.
  revert pre idx acc seen m.
  induction gps as [|c gps IH]; intros pre idx acc seen m Hseen Hinv.
  { by rewrite app_nil_r. }
  cbn [build_loop]. rewrite (cons_middle c pre gps), app_assoc.
  destruct (OBS_MAPPING !! c) as [t|] eqn:Hc.
  - rewrite (truthy_mapped c t Hc). cbn [andb].
    change (default "" (Some t)) with t.
    destruct (bool_decide (t ∈ seen)) eqn:Hin; cbn [negb].
    + apply bool_decide_eq_true in Hin. apply IH; [done|].
      apply mapper_inv_skip; [done|]. intros t' Ht'.
      rewrite Hc in Ht'. injection Ht' as <-. by apply Hseen.
    + apply bool_decide_eq_false in Hin. apply IH.
      * intros t'. rewrite elem_of_union, elem_of_singleton, elem_of_app,
          list_elem_of_singleton, Hseen. tauto.
      * apply mapper_inv_add; [done..|]. by rewrite <- Hseen.
  - cbn [truthy andb]. apply IH; [done|].
    apply mapper_inv_skip; [done|]. intros t' Ht'. congruence.
Qed.

(** The index mapping records, for every position, what the table gives. *)
Lemma build_loop_mapping_old gps idx acc seen m j :
  j < idx -> (build_loop idx gps acc seen m).2 !! j = m !! j.
Proof.
  revert idx acc seen m. induction gps as [|c gps IH]; intros idx acc seen m Hj.
  { done. }
  cbn [build_loop].
  destruct (truthy _ && _); rewrite IH by lia; by rewrite lookup_insert_ne by lia.
Qed.

Lemma build_loop_mapping gps idx acc seen m k c :
  gps !! k = Some c ->
  (build_loop idx gps acc seen m).2 !! (idx + k) = Some (OBS_MAPPING !! c).
Proof.
  revert idx acc seen m k.
  induction gps as [|c' gps IH]; intros idx acc seen m k Hk; [done|].
  cbn [build_loop]. destruct k as [|k].
  - injection Hk as ->. rewrite Nat.add_0_r.
    destruct (truthy _ && _);
      rewrite build_loop_mapping_old by lia; by rewrite lookup_insert_eq.
  - cbn in Hk. replace (idx + S k) with (S idx + k) by lia.
    destruct (truthy _ && _); by apply IH.
Qed.

(** C5: the target code list has no duplicates; a target code is listed
    exactly when some declared code translates to it (a code absent from
    the table adds nothing); the codes are listed in the order in which
    their first sources occur; and every source position is mapped to what
    the table gives for its code. *)
Theorem target_codes_first_seen h :
  let gps := gps_types_of h in
  let rnx2_types := (_build_obs_type_mapping h).1 in
  let mapping := (_build_obs_type_mapping h).2 in
  NoDup rnx2_types
  /\ (forall t, t ∈ rnx2_types <-> exists p, source_of gps t p)
  /\ first_seen_order gps rnx2_types
  /\ (forall idx c, gps !! idx = Some c ->
        mapping !! idx = Some (OBS_MAPPING !! c)).
Proof.
  intros gps rnx2_types mapping.
  destruct (build_loop_inv gps [] 0 [] ∅ ∅) as (Hnd & Hmem & Hord).
  { intros t. by rewrite elem_of_empty, elem_of_nil. }
  { apply mapper_inv_nil. }
  repeat split; try done; try apply Hmem.
  intros idx c Hidx. by apply (build_loop_mapping gps 0 [] ∅ ∅ idx c).
Qed.

End Mapper.

(** ** The continuation scan of the header parser *)

Section Continuation.
Context `{PyFloat}.
Import Py.

Lemma parse_loop_skip pre rest i h :
  parse_loop (length pre) i (pre ++ rest) h
  = parse_loop 0 (i + length pre) rest h.
Proof.
  revert i. induction pre as [|l pre IH]; intros i.
  { cbn [length app]. by rewrite Nat.add_0_r. }
  cbn [length app parse_loop]. rewrite IH. f_equal. lia.
Qed.

Lemma header_record_sys i line rest h :
  label_of line = "SYS / # / OBS TYPES" ->
  header_record i line rest h =
    match int (strip (slice 3 6 line)) with
    | None => Fail ValueError
    | Some num_obs =>
        let '(obs, k) := scan_continuation num_obs (split (slice 7 60 line)) rest in
        Next k (set_obs_types
                  (<[slice 0 1 line := list_upto num_obs obs]> (obs_types h)) h)
    end.
Proof. intros Hl. unfold header_record. rewrite Hl. reflexivity. Qed.

Lemma list_upto_all {A} (n : Z) (l : list A) :
  (Z.of_nat (length l) <= n)%Z -> list_upto n l = l.
Proof.
  intros Hn. unfold list_upto.
  destruct (0 <=? n)%Z eqn:H0; [|lia].
  apply take_ge. lia.
Qed.

(** The scan reads the continuation lines and stops on the first line with
    another label, which it has already stepped onto. *)
Lemma scan_continuation_short num_obs obs conts other post :
  Forall (fun l => label_of l = "SYS / # / OBS TYPES") conts ->
  label_of other <> "SYS / # / OBS TYPES" ->
  (Z.of_nat (length (obs ++ flat_map (fun l => split (slice 7 60 l)) conts))
     < num_obs)%Z ->
  scan_continuation num_obs obs (conts ++ other :: post)
  = (obs ++ flat_map (fun l => split (slice 7 60 l)) conts, length conts + 1).
Proof.
  intros Hconts Hother. revert obs.
  induction Hconts as [|c conts Hc Hconts IH]; intros obs Hlen.
  - cbn [flat_map app length] in *. rewrite app_nil_r in *.
    cbn [scan_continuation].
    destruct (Z.ltb_spec (Z.of_nat (length obs)) num_obs) as [_|]; [|lia].
    destruct (label_of other == "SYS / # / OBS TYPES") eqn:E; [|done].
    by apply String.eqb_eq in E.
  - cbn [flat_map] in *. rewrite app_assoc in Hlen.
    cbn [app scan_continuation].
    destruct (Z.ltb_spec (Z.of_nat (length obs)) num_obs) as [_|Hge].
    2:{ rewrite !length_app in Hlen. lia. }
    rewrite Hc, String.eqb_refl.
    rewrite (IH _ Hlen). by rewrite app_assoc.
Qed.

(** C10: when the declaration announces more codes than its line and its
    continuation lines supply, the next line with another label is passed
    over: parsing resumes after it with only the code table changed, and
    the outcome is the same as if that line were blank. *)
Theorem continuation_break_line_lost i line conts other post h num_obs :
  label_of line = "SYS / # / OBS TYPES" ->
  int (strip (slice 3 6 line)) = Some num_obs ->
  Forall (fun l => label_of l = "SYS / # / OBS TYPES") conts ->
  label_of other <> "SYS / # / OBS TYPES" ->
  let supplied :=
    split (slice 7 60 line) ++ flat_map (fun l => split (slice 7 60 l)) conts in
  (Z.of_nat (length supplied) < num_obs)%Z ->
  parse_loop 0 i (line :: conts ++ other :: post) h
  = parse_loop 0 (i + length conts + 2) post
      (set_obs_types (<[slice 0 1 line := supplied]> (obs_types h)) h)
  /\ parse_loop 0 i (line :: conts ++ other :: post) h
     = parse_loop 0 i (line :: conts ++ "" :: post) h.
Proof.
  intros Hl Hint Hconts Hother supplied Hlen.
  assert (forall o, label_of o <> "SYS / # / OBS TYPES" ->
    parse_loop 0 i (line :: conts ++ o :: post) h
    = parse_loop 0 (i + length conts + 2) post
        (set_obs_types (<[slice 0 1 line := supplied]> (obs_types h)) h)) as Hstep.
  { intros o Ho. cbn [parse_loop].
    rewrite (header_record_sys _ _ _ _ Hl), Hint.
    rewrite (scan_continuation_short _ _ _ _ _ Hconts Ho Hlen).
    cbv beta iota. fold supplied.
    rewrite (list_upto_all num_obs supplied) by lia.
    replace (conts ++ o :: post) with ((conts ++ [o]) ++ post)
      by (by rewrite <- app_assoc).
    replace (length conts + 1) with (length (conts ++ [o]))
      by (rewrite length_app; cbn; lia).
    rewrite parse_loop_skip. f_equal. rewrite length_app. cbn. lia. }
  split; [by apply Hstep|].
  rewrite (Hstep other Hother). symmetry. by apply Hstep.
Qed.

End Continuation.

Lemma continuation_break_line_lost_witness :
  parse_loop 0 1 (short_sys_line :: [] ++ marker_line :: [end_line]) initial_header
  = parse_loop 0 3 [end_line]
      (set_obs_types (<[ "G" := ["C1C"; "L1C"] ]> ∅) initial_header)
  /\ parse_loop 0 1 (short_sys_line :: [] ++ marker_line :: [end_line]) initial_header
     = parse_loop 0 1 (short_sys_line :: [] ++ "" :: [end_line]) initial_header.
Proof.
  apply (continuation_break_line_lost 1 short_sys_line [] marker_line
           [end_line] initial_header 3).
  - vm_compute. reflexivity.
  - vm_compute. reflexivity.
  - constructor.
  - vm_compute. discriminate.
  - vm_compute. reflexivity.
Defined.

(** The marker name that follows the short declaration is lost. *)
Lemma marker_after_short_declaration :
  marker_name <$>
    match _parse_rinex3_header [version3_line; short_sys_line; marker_line; end_line] with
    | Ok h => Some h | Raise _ => None
    end = Some "".
Proof. vm_compute. reflexivity. Qed.

(** ** The data loop *)

Section DataLoop.
Context `{PyFloat}.
Import Py.
Implicit Types (gps types : list string) (mapping : gmap nat (option string)).

Lemma convert_loop_skip gps types mapping pre rest :
  convert_loop gps types mapping (length pre) (pre ++ rest)
  = convert_loop gps types mapping 0 rest.
Proof. induction pre as [|l pre IH]; [done|]. cbn [length app convert_loop]. apply IH. Qed.

Lemma convert_loop_skip_all gps types mapping pre :
  convert_loop gps types mapping (length pre) pre = [].
Proof.
  rewrite <- (app_nil_r pre) at 2. by rewrite convert_loop_skip.
Qed.

(** The [for] loop reads exactly the declared lines when they are there,
    whatever follows them. *)
Lemma collect_sats_app gps sat_lines rest sats sat_data :
  collect_sats gps (length sat_lines) (sat_lines ++ rest) sats sat_data
  = collect_sats gps (length sat_lines) sat_lines sats sat_data.
Proof.
  revert sats sat_data.
  induction sat_lines as [|l sat_lines IH]; intros sats sat_data; [done|].
  cbn [length app collect_sats]. by rewrite !IH.
Qed.

Lemma collect_sats_read gps sat_lines sats sat_data :
  (collect_sats gps (length sat_lines) sat_lines sats sat_data).2
  = length sat_lines.
Proof.
  revert sats sat_data.
  induction sat_lines as [|l sat_lines IH]; intros sats sat_data; [done|].
  cbn [length collect_sats].
  destruct (negb _).
  - specialize (IH sats sat_data).
    destruct (collect_sats _ _ _ _ _) as [[? ?] k]. cbn in *. by rewrite IH.
  - specialize (IH (sats ++ [strip (slice 0 3 l)])
                   (<[strip (slice 0 3 l) := sat_values gps l]> sat_data)).
    destruct (collect_sats _ _ _ _ _) as [[? ?] k]. cbn in *. by rewrite IH.
Qed.

(** Only the first [n] lines matter to the [for] loop. *)
Lemma collect_sats_take gps n : forall rest sats sat_data,
  collect_sats gps n rest sats sat_data
  = collect_sats gps (length (take n rest)) (take n rest) sats sat_data.
Proof.
  induction n as [|n IH]; intros rest sats sat_data; [done|].
  destruct rest as [|l rest]; [done|].
  cbn [take length collect_sats].
  destruct (negb _); by rewrite <- IH.
Qed.

Lemma collect_sats_cons gps l ls sats sat_data :
  collect_sats gps (S (length ls)) (l :: ls) sats sat_data
  = let '(s, d, k) :=
      if startswith "G" (sat_id_of l)
      then collect_sats gps (length ls) ls (sats ++ [sat_id_of l])
             (<[sat_id_of l := sat_values gps l]> sat_data)
      else collect_sats gps (length ls) ls sats sat_data in
    (s, d, S k).
Proof.
  cbn [collect_sats]. fold (sat_id_of l).
  by destruct (startswith "G" (sat_id_of l)).
Qed.

Lemma collect_sats_ids_exact gps ls : forall sats sat_data,
  (collect_sats gps (length ls) ls sats sat_data).1.1
  = sats ++ List.filter (startswith "G") (map sat_id_of ls)
  /\ (collect_sats gps (length ls) ls sats sat_data).2 = length ls.
Proof.
  induction ls as [|l ls IH]; intros sats sat_data.
  { cbn. by rewrite app_nil_r. }
  cbn [length]. rewrite collect_sats_cons. cbn [map List.filter].
  destruct (startswith "G" (sat_id_of l)).
  - destruct (IH (sats ++ [sat_id_of l])
                 (<[sat_id_of l := sat_values gps l]> sat_data)) as [H1 H2].
    destruct (collect_sats _ _ _ _ _) as [[s d] k]. cbn in *.
    rewrite H1, H2. by rewrite <- app_assoc.
  - destruct (IH sats sat_data) as [H1 H2].
    destruct (collect_sats _ _ _ _ _) as [[s d] k]. cbn in *.
    by rewrite H1, H2.
Qed.

(** A well-formed epoch, alone or followed by more lines. *)
Lemma convert_loop_epoch gps types mapping line ep sat_lines rest :
  well_formed_epoch line ep sat_lines ->
  convert_loop gps types mapping 0 (line :: sat_lines ++ rest)
  = epoch_output gps types mapping ep sat_lines
    ++ convert_loop gps types mapping 0 rest.
Proof.
  intros (Hs & Hp & Hn). cbn [convert_loop]. rewrite Hs, Hp, Hn, Nat2Z.id.
  rewrite collect_sats_app. unfold epoch_output.
  pose proof (collect_sats_read gps sat_lines [] ∅) as Hk.
  destruct (collect_sats gps (length sat_lines) sat_lines [] ∅) as [[sats sd] k].
  cbn in Hk. subst k. rewrite convert_loop_skip. by destruct sats.
Qed.

Lemma convert_loop_bad_epoch gps types mapping line rest :
  startswith ">" line = true -> parse_epoch line = None ->
  convert_loop gps types mapping 0 (line :: rest)
  = convert_loop gps types mapping 0 rest.
Proof. intros Hs Hp. cbn [convert_loop]. by rewrite Hs, Hp. Qed.

Lemma convert_loop_other_lines gps types mapping junk rest :
  Forall (fun l => startswith ">" l = false) junk ->
  convert_loop gps types mapping 0 (junk ++ rest)
  = convert_loop gps types mapping 0 rest.
Proof.
  induction 1 as [|l junk Hl Hjunk IH]; [done|].
  cbn [app convert_loop]. by rewrite Hl.
Qed.

(** What a well-formed epoch puts in the output, written out: nothing
    when none of its satellite lines has an id that starts with 'G';
    otherwise the epoch header with these ids, then the records of the
    satellites in the same order. *)
Lemma epoch_output_written gps types mapping ep sat_lines :
  let sats := List.filter (startswith "G") (map sat_id_of sat_lines) in
  let sat_data := (collect_sats gps (length sat_lines) sat_lines [] ∅).1.2 in
  epoch_output gps types mapping ep sat_lines
  = match sats with
    | [] => []
    | _ => (epoch_hdr ep sats +:+ NL)
           :: flat_map (sat_writes gps types mapping sat_data) sats
    end.
Proof.
  intros sats sat_data. unfold epoch_output, sat_data, sats.
  destruct (collect_sats_ids_exact gps sat_lines [] ∅) as [Hids _].
  destruct (collect_sats gps (length sat_lines) sat_lines [] ∅) as [[s d] k].
  cbn [fst snd app] in *. by subst s.
Qed.

(** C9: one epoch-start line whose fields do not parse, between two
    well-formed epochs and followed by lines that start no epoch, is
    passed over: the output is that of the first epoch followed by that of
    the second, and nothing else. The output of each of the two epochs is
    its header line, listing the satellites whose id starts with 'G', and
    the records of these satellites (nothing when it has no such
    satellite). *)
Theorem malformed_epoch_skipped lines data_start h types mapping
    line1 ep1 sat_lines1 bad junk line2 ep2 sat_lines2 :
  drop data_start lines
    = (line1 :: sat_lines1) ++ bad :: junk ++ (line2 :: sat_lines2) ->
  well_formed_epoch line1 ep1 sat_lines1 ->
  well_formed_epoch line2 ep2 sat_lines2 ->
  startswith ">" bad = true ->
  parse_epoch bad = None ->
  Forall (fun l => startswith ">" l = false) junk ->
  let gps := gps_types_of h in
  let written ep sat_lines :=
    let sats := List.filter (startswith "G") (map sat_id_of sat_lines) in
    let sat_data :=
      (collect_sats gps (length sat_lines) sat_lines [] ∅).1.2 in
    match sats with
    | [] => []
    | _ => (epoch_hdr ep sats +:+ NL)
           :: flat_map (sat_writes gps types mapping sat_data) sats
    end in
  _convert_data lines data_start h types mapping
  = epoch_output gps types mapping ep1 sat_lines1
    ++ epoch_output gps types mapping ep2 sat_lines2
  /\ _convert_data lines data_start h types mapping
     = written ep1 sat_lines1 ++ written ep2 sat_lines2.
Proof.
  intros Hdata Hwf1 Hwf2 Hbad Hparse Hjunk gps written.
  assert (_convert_data lines data_start h types mapping
          = epoch_output gps types mapping ep1 sat_lines1
            ++ epoch_output gps types mapping ep2 sat_lines2) as Hout.
  { unfold _convert_data. rewrite Hdata. cbn [app]. fold gps.
    rewrite (convert_loop_epoch _ _ _ _ _ _ _ Hwf1).
    rewrite (convert_loop_bad_epoch _ _ _ _ _ Hbad Hparse).
    rewrite (convert_loop_other_lines _ _ _ _ _ Hjunk).
    rewrite <- (app_nil_r sat_lines2) at 1.
    rewrite (convert_loop_epoch _ _ _ _ _ _ _ Hwf2).
    cbn [convert_loop]. by rewrite app_nil_r. }
  split; [done|]. rewrite Hout. unfold written.
  by rewrite !epoch_output_written.
Qed.

End DataLoop.

Lemma malformed_epoch_skipped_witness :
  _convert_data sample_data 0 sample_header ["C1"; "L1"] sample_mapping
  = [ " 23  1  1  0  0  0.0000000  0  1G01" +:+ NL;
      "  20000000.123 7 105000000.456 8" +:+ NL;
      " 23  1  1  0  1  0.0000000  0  1G07" +:+ NL;
      "  22000000.750 8                " +:+ NL ].
Proof.
  pose proof (malformed_epoch_skipped sample_data 0 sample_header
                ["C1"; "L1"] sample_mapping epoch1_line
                {| yr := 2023; mo := 1; dy := 1; hr := 0; mn := 0;
                   sc := {| DecimalFloat.mant := 0; DecimalFloat.scale := 7 |};
                   flag := 0; num_sats := 2 |}
                epoch1_sats bad_epoch_line bad_epoch_sats epoch2_line
                {| yr := 2023; mo := 1; dy := 1; hr := 0; mn := 1;
                   sc := {| DecimalFloat.mant := 0; DecimalFloat.scale := 7 |};
                   flag := 0; num_sats := 1 |}
                epoch2_sats) as Hthm.
  cbv zeta in Hthm.
  destruct Hthm as [_ Hw].
  - reflexivity.
  - split; [vm_compute; reflexivity|]. split; reflexivity.
  - split; [vm_compute; reflexivity|]. split; reflexivity.
  - vm_compute. reflexivity.
  - reflexivity.
  - repeat constructor.
  - rewrite Hw. vm_compute. reflexivity.
Defined.

(** A separator character in a numeric field of the epoch line makes
    [int] raise: the line is skipped as malformed, and the epoch after it
    is written. *)
Lemma separator_epoch_skipped :
  Py.int (String "028" "023") = None
  /\ Py.strip (String "028" "023") = "023"
  /\ parse_epoch separator_epoch_line = None
  /\ Py.join (_convert_data (separator_epoch_line :: epoch2_line :: epoch2_sats)
                0 sample_header ["C1"; "L1"] sample_mapping)
     = " 23  1  1  0  1  0.0000000  0  1G07" +:+ NL
       +:+ "  22000000.750 8                " +:+ NL.
Proof. split_and!; vm_compute; reflexivity. Qed.

(** The text written for the sample records: the two good epochs. *)
Lemma sample_data_converted :
  Py.join (_convert_data sample_data 0 sample_header ["C1"; "L1"] sample_mapping)
  = sample_data_output.
Proof. vm_compute. reflexivity. Qed.

(** ** Wrapped records *)

Section Wrapping.
Context `{PyFloat}.
Import Py.

Lemma join_sep_cons sep g tl :
  tl <> [] -> join_sep sep (g :: tl) = g +:+ sep +:+ join_sep sep tl.
Proof. by destruct tl. Qed.

Lemma columns_app w a b : columns w (a ++ b) = columns w a +:+ columns w b.
Proof. unfold columns. by rewrite map_app, join_app. Qed.

Lemma columns_singleton w x : columns w [x] = fmt_rs w x.
Proof. unfold columns. cbn. apply str_app_nil_r. Qed.

Lemma chunks_cons_group {A} n (g rest : list A) :
  0 < n -> length g = n -> chunks n (g ++ rest) = g :: chunks n rest.
Proof.
  intros Hn Hg. rewrite chunks_unfold; [|done|].
  - by rewrite take_app_length', drop_app_length'.
  - destruct g; [cbn in Hg; lia | done].
Qed.

Lemma chunks_three {A} n (l : list A) :
  0 < n -> 2 * n < length l <= 3 * n ->
  chunks n l = [take n l; take n (drop n l); drop (2 * n) l].
Proof.
  intros Hn Hl.
  rewrite <- (take_drop n l) at 1.
  rewrite chunks_cons_group by (rewrite ?length_take; lia).
  rewrite <- (take_drop n (drop n l)) at 1.
  rewrite chunks_cons_group by (rewrite ?length_take, ?length_drop; lia).
  rewrite drop_drop. replace (n + n) with (2 * n) by lia.
  rewrite chunks_short; [done..| |].
  - intros Hnil. apply (f_equal length) in Hnil.
    rewrite length_drop in Hnil. cbn in Hnil. lia.
  - rewrite length_drop. lia.
Qed.

(** The satellite ids: [pending] are the ids already placed on the
    current physical line. *)
Lemma add_sat_ids_wrap nsats sats : forall pending base k,
  length pending < 12 -> k mod 12 = length pending ->
  nsats = k + length sats ->
  add_sat_ids nsats k sats (base +:+ columns 3 pending)
  = base +:+ join_sep continuation_indent
               (map (columns 3) (chunks 12 (pending ++ sats))).
Proof.
  induction sats as [|sat tl IH]; intros pending base k Hp Hk Hn.
  { rewrite app_nil_r. cbn [add_sat_ids].
    destruct pending as [|x pending]; [by rewrite !str_app_nil_r|].
    by rewrite chunks_short by (done || lia). }
  cbn [add_sat_ids].
  assert ((base +:+ columns 3 pending) +:+ fmt_rs 3 sat
          = base +:+ columns 3 (pending ++ [sat])) as Hhdr.
  { by rewrite columns_app, columns_singleton, str_app_assoc. }
  rewrite Hhdr.
  rewrite (cons_middle sat pending tl), app_assoc.
  destruct tl as [|sat2 tl].
  - replace (k + 1 <? nsats) with false
      by (symmetry; apply Nat.ltb_ge; cbn in Hn; lia).
    rewrite andb_false_r. cbn [add_sat_ids]. rewrite app_nil_r.
    rewrite chunks_short; [done | lia | by destruct pending |].
    rewrite length_app. cbn. lia.
  - destruct (decide (length pending = 11)) as [H11|H11].
    + replace ((k + 1) mod 12 =? 0) with true
        by (symmetry; apply Nat.eqb_eq; revert Hk H11; mod_lia).
      replace (k + 1 <? nsats) with true
        by (symmetry; apply Nat.ltb_lt; cbn in Hn; lia).
      cbn [andb].
      rewrite chunks_cons_group by (rewrite ?length_app; cbn; lia).
      cbn [map]. rewrite join_sep_cons.
      2:{ rewrite chunks_unfold by (done || lia). done. }
      change (NL +:+ spaces 32) with continuation_indent.
      set (base' := (base +:+ columns 3 (pending ++ [sat])) +:+ continuation_indent).
      transitivity (base' +:+ join_sep continuation_indent
                                (map (columns 3) (chunks 12 (sat2 :: tl)))).
      2:{ unfold base'. by rewrite !str_app_assoc. }
      pose proof (IH [] base' (S k)) as IH'. cbn [app] in IH'.
      rewrite <- IH';
        [ | cbn; lia | revert Hk H11; cbn [length]; mod_lia | cbn in *; lia ].
      f_equal. unfold columns. cbn. by rewrite str_app_nil_r.
    + assert ((k + 1) mod 12 <> 0 /\ (k + 1) mod 12 = length pending + 1)
        as [Hne Hk'].
      { clear -Hk H11 Hp. generalize dependent (length pending). mod_lia. }
      apply Nat.eqb_neq in Hne. rewrite Hne.
      cbn [andb]. apply IH.
      * rewrite length_app. cbn. lia.
      * rewrite length_app. cbn. by rewrite <- Hk', Nat.add_1_r.
      * cbn in *. lia.
Qed.

Lemma epoch_hdr_wrap ep sats :
  epoch_hdr ep sats
  = epoch_prefix ep (length sats)
    +:+ join_sep continuation_indent (map (columns 3) (chunks 12 sats)).
Proof.
  unfold epoch_hdr.
  pose proof (add_sat_ids_wrap (length sats) sats []
                (epoch_prefix ep (length sats)) 0) as Hw.
  change (columns 3 []) with "" in Hw. rewrite str_app_nil_r in Hw.
  apply Hw; cbn; lia.
Qed.

(** The inner [for j in range(start, end)] appends the codes of one
    physical line. *)
Lemma foldl_codes w (l : list string) len : forall start init,
  start + len <= length l ->
  foldl (fun acc j => acc +:+ fmt_rs w (nth j l "")) init (seq start len)
  = init +:+ columns w (take len (drop start l)).
Proof.
  induction len as [|len IH]; intros start init Hle.
  { cbn. by rewrite str_app_nil_r. }
  destruct (lookup_lt_is_Some_2 l start) as [x Hx]; [lia|].
  cbn [seq foldl]. rewrite IH by lia.
  rewrite (drop_S l x start Hx). cbn [take].
  rewrite nth_lookup, Hx. cbn [default from_option].
  change (x :: take len (drop (S start) l))
    with ([x] ++ take len (drop (S start) l)).
  by rewrite columns_app, columns_singleton, str_app_assoc.
Qed.

Lemma obs_type_line_group types i :
  i * 9 < length types ->
  obs_type_line types i
  = code_record_line (length types) i (take 9 (drop (i * 9) types)).
Proof.
  intros Hi. unfold obs_type_line, code_record_line.
  rewrite foldl_codes by lia. do 4 f_equal.
  destruct (decide (i * 9 + 9 <= length types)) as [Hle|Hgt].
  - f_equal. lia.
  - rewrite !take_ge; [done|rewrite length_drop; lia..].
Qed.

Lemma obs_type_lines_chunks types :
  obs_type_lines types
  = imap (code_record_line (length types)) (chunks 9 types).
Proof.
  unfold obs_type_lines. apply list_eq. intros i.
  rewrite list_lookup_fmap, list_lookup_imap.
  destruct (decide (i < (length types + 8) / 9)) as [Hlt|Hge].
  - assert (i * 9 < length types) as Hi
      by (clear -Hlt; generalize dependent (length types); mod_lia).
    rewrite lookup_seq_lt by done.
    rewrite chunks_lookup by (done || lia). cbn.
    by rewrite obs_type_line_group.
  - rewrite lookup_seq_ge by lia.
    rewrite (lookup_ge_None_2 (chunks 9 types)); [done|].
    rewrite length_chunks by lia.
    replace (length types + 9 - 1) with (length types + 8) by lia. lia.
Qed.

(** C8: the code record is the code list in groups of 9, one physical
    line per group, the count on the first line and a blank count field on
    the others; the epoch header is its fixed part followed by the
    satellite ids in groups of 12, the groups separated by a line break
    and 32 blanks. 23 codes give three lines with 9, 9 and 5 codes; 25
    satellites give three lines with 12, 12 and 1 ids. *)
Theorem continuation_wrapping (types sats : list string) (ep : epoch) :
  obs_type_lines types
    = imap (code_record_line (length types)) (chunks 9 types)
  /\ epoch_hdr ep sats
     = epoch_prefix ep (length sats)
       +:+ join_sep continuation_indent (map (columns 3) (chunks 12 sats))
  /\ (length types = 23 ->
      exists g1 g2 g3,
        types = g1 ++ g2 ++ g3
        /\ length g1 = 9 /\ length g2 = 9 /\ length g3 = 5
        /\ obs_type_lines types
           = [ code_record_line 23 0 g1; code_record_line 23 1 g2;
               code_record_line 23 2 g3 ])
  /\ (length sats = 25 ->
      exists g1 g2 g3,
        sats = g1 ++ g2 ++ g3
        /\ length g1 = 12 /\ length g2 = 12 /\ length g3 = 1
        /\ epoch_hdr ep sats
           = epoch_prefix ep 25
             +:+ columns 3 g1 +:+ continuation_indent
             +:+ columns 3 g2 +:+ continuation_indent
             +:+ columns 3 g3).
Proof.
  split; [apply obs_type_lines_chunks|].
  split; [apply epoch_hdr_wrap|]. split.
  - intros Hlen.
    exists (take 9 types), (take 9 (drop 9 types)), (drop 18 types).
    rewrite !length_take, !length_drop, Hlen.
    split; [|split; [lia|split; [lia|split; [lia|]]]].
    + rewrite <- (take_drop 9 types) at 1. f_equal.
      rewrite <- (take_drop 9 (drop 9 types)) at 1. by rewrite drop_drop.
    + rewrite obs_type_lines_chunks, Hlen.
      by rewrite (chunks_three 9 types) by lia.
  - intros Hlen.
    exists (take 12 sats), (take 12 (drop 12 sats)), (drop 24 sats).
    rewrite !length_take, !length_drop, Hlen.
    split; [|split; [lia|split; [lia|split; [lia|]]]].
    + rewrite <- (take_drop 12 sats) at 1. f_equal.
      rewrite <- (take_drop 12 (drop 12 sats)) at 1. by rewrite drop_drop.
    + rewrite epoch_hdr_wrap, Hlen.
      by rewrite (chunks_three 12 sats) by lia.
Qed.

End Wrapping.

Lemma wrapping_samples :
  obs_type_lines codes23
  = [ "    23    C1    L1    D1    S1    P1    C2    L2    D2    S2# / TYPES OF OBSERV" +:+ NL;
      "          P2    C5    L5    D5    S5    A1    A2    A3    A4# / TYPES OF OBSERV" +:+ NL;
      "          A5    A6    A7    A8    A9                        # / TYPES OF OBSERV" +:+ NL ]
  /\ epoch_hdr sample_epoch sats25
     = " 23  1  1  0  0  0.0000000  0 25G01G02G03G04G05G06G07G08G09G10G11G12" +:+ NL
       +:+ "                                G13G14G15G16G17G18G19G20G21G22G23G24" +:+ NL
       +:+ "                                G25".
Proof. split; vm_compute; reflexivity. Qed.

(** ** Epoch headers *)

Section EpochHeaders.
Context `{PyFloat}.
Import Py.
Implicit Types (gps types : list string) (mapping : gmap nat (option string)).

Lemma convert_loop_blocks gps types mapping k rest :
  convert_loop gps types mapping k rest
  = flat_map (fun '(ep, sats, sat_data) =>
                emit_epoch gps types mapping ep sats sat_data)
      (retained_epochs gps k rest).
Proof.
  revert k. induction rest as [|line rest IH]; intros k; [done|].
  cbn [convert_loop retained_epochs]. destruct k as [|k]; [|apply IH].
  destruct (startswith ">" line); [|apply IH].
  destruct (parse_epoch line) as [ep|]; [|apply IH].
  destruct (collect_sats gps _ rest [] ∅) as [[sats sd] k].
  destruct sats as [|sat sats]; [apply IH|].
  cbn [flat_map]. by rewrite IH.
Qed.

Lemma retained_id_strip line :
  startswith "G" (strip (slice 0 3 line)) = true ->
  retained_id (strip (slice 0 3 line)).
Proof.
  intros Hg. split; [done|].
  etrans; [apply length_strip|]. rewrite length_slice. lia.
Qed.

Lemma collect_sats_retained gps n : forall rest sats sat_data,
  Forall retained_id sats ->
  Forall retained_id (collect_sats gps n rest sats sat_data).1.1.
Proof.
  induction n as [|n IH]; intros rest sats sat_data Hsats; [done|].
  cbn [collect_sats]. destruct rest as [|sat_line rest]; [done|].
  destruct (startswith "G" (strip (slice 0 3 sat_line))) eqn:Hg; cbn [negb].
  - specialize (IH rest (sats ++ [strip (slice 0 3 sat_line)])
                  (<[strip (slice 0 3 sat_line) := sat_values gps sat_line]> sat_data)).
    destruct (collect_sats _ _ _ _ _) as [[s d] k]. cbn in *.
    apply IH. apply Forall_app. split; [done|].
    constructor; [|constructor]. by apply retained_id_strip.
  - specialize (IH rest sats sat_data Hsats).
    by destruct (collect_sats _ _ _ _ _) as [[s d] k].
Qed.

Lemma retained_epochs_ok gps k rest :
  Forall (fun '(ep, sats, sat_data) => sats <> [] /\ Forall retained_id sats)
    (retained_epochs gps k rest).
Proof.
  revert k. induction rest as [|line rest IH]; intros k; [constructor|].
  cbn [retained_epochs]. destruct k as [|k]; [|apply IH].
  destruct (startswith ">" line); [|apply IH].
  destruct (parse_epoch line) as [ep|]; [|apply IH].
  pose proof (collect_sats_retained gps (Z.to_nat (num_sats ep)) rest [] ∅
                (Forall_nil_2 _)) as Hret.
  destruct (collect_sats gps _ rest [] ∅) as [[sats sd] k].
  destruct sats as [|sat sats]; [apply IH|].
  constructor; [|apply IH]. done.
Qed.

Lemma epoch_prefix_count ep :
  exists fixed, forall n,
    epoch_prefix ep n = fixed +:+ fmt_d 3 (Z.of_nat n).
Proof.
  eexists. intros n. unfold epoch_prefix.
  rewrite <- !str_app_assoc. reflexivity.
Qed.

Lemma length_retained_column s :
  retained_id s -> String.length (fmt_rs 3 s) = 3.
Proof. intros [_ Hlen]. unfold fmt_rs. rewrite length_rjust. lia. Qed.

(** C7: the output is the sequence of the retained epochs, each emitted
    with its header first. In every one of them the satellite list is not
    empty, every id starts with 'G' and takes one 3-column slot, and the
    header is a part that does not depend on the satellites, then the
    number of ids in a 3-column field, then the ids. An epoch line whose
    satellite lines retain nothing adds nothing to the output. *)
Theorem epoch_header_satellites lines data_start h types mapping :
  let gps := gps_types_of h in
  _convert_data lines data_start h types mapping
  = flat_map (fun '(ep, sats, sat_data) =>
                (epoch_hdr ep sats +:+ NL)
                :: flat_map (sat_writes gps types mapping sat_data) sats)
      (retained_epochs gps 0 (drop data_start lines))
  /\ Forall (fun '(ep, sats, sat_data) =>
       sats <> []
       /\ Forall (fun s => startswith "G" s = true
                           /\ String.length (fmt_rs 3 s) = 3) sats
       /\ exists fixed,
            epoch_hdr ep sats
            = fixed +:+ fmt_d 3 (Z.of_nat (length sats))
              +:+ join_sep continuation_indent
                    (map (columns 3) (chunks 12 sats)))
     (retained_epochs gps 0 (drop data_start lines))
  /\ (forall line rest ep sat_data k,
        startswith ">" line = true ->
        parse_epoch line = Some ep ->
        collect_sats gps (Z.to_nat (num_sats ep)) rest [] ∅ = ([], sat_data, k) ->
        convert_loop gps types mapping 0 (line :: rest)
        = convert_loop gps types mapping k rest).
Proof.
  intros gps. split; [|split].
  - unfold _convert_data. apply convert_loop_blocks.
  - eapply Forall_impl; [apply retained_epochs_ok|].
    intros [[ep sats] sd] [Hne Hret]. split; [done|]. split.
    + eapply Forall_impl; [exact Hret|]. intros s Hs.
      split; [apply Hs | by apply length_retained_column].
    + destruct (epoch_prefix_count ep) as [fixed Hfixed].
      exists fixed. by rewrite epoch_hdr_wrap, Hfixed, str_app_assoc.
  - intros line rest ep sd k Hs Hp Hc. cbn [convert_loop].
    by rewrite Hs, Hp, Hc.
Qed.

End EpochHeaders.

(** ** Satellite records *)

Section Records.
Context `{PyFloat}.
Import Py.
Implicit Types (gps types : list string) (mapping : gmap nat (option string)).

Lemma length_fmt_value val : String.length (fmt_value val) = 16.
Proof.
  unfold fmt_value.
  generalize (if 0 <? String.length val then rstrip val else "").
  intros v.
  destruct (Nat.leb_spec 14 (String.length v)) as [H14|H14].
  - rewrite !str_length_app, length_slice.
    destruct (Nat.ltb_spec 14 (String.length v));
      destruct (Nat.ltb_spec 15 (String.length v));
      rewrite ?length_slice; cbn [String.length]; lia.
  - destruct (Nat.ltb_spec 0 (String.length v)).
    + unfold fmt_rs. rewrite !str_length_app, length_rjust. cbn. lia.
    + rewrite !str_length_app, length_spaces. cbn. lia.
Qed.

(** The written triple, part by part: the text of the field without its
    trailing white space gives the number, right-justified in 14 columns,
    and the two flags, each a blank when the text ends before it. *)
Lemma fmt_value_split val :
  let v := rstrip val in
  fmt_value val
  = fmt_rs 14 (slice 0 14 v) +:+ fmt_s 1 (slice 14 15 v)
    +:+ fmt_s 1 (slice 15 16 v).
Proof.
  intros v. unfold fmt_value.
  assert ((if 0 <? String.length val then rstrip val else "") = v) as ->.
  { unfold v. by destruct val. }
  clearbody v. clear val.
  do 16 (destruct v as [|? v]; [reflexivity|]). reflexivity.
Qed.

Lemma fmt_value_blank : fmt_value (spaces 16) = spaces 16.
Proof. vm_compute. reflexivity. Qed.

Lemma join_nonempty (g : list string) :
  Forall (fun x => String.length x = 16) g ->
  nonempty (join g) = negb (bool_decide (g = [])).
Proof.
  intros Hg. destruct g as [|x g]; [done|].
  apply Forall_cons_1 in Hg as [Hx _]. cbn [join foldr].
  rewrite nonempty_length, str_length_app, Hx. done.
Qed.

(** The observation lines: [pending] are the triples already placed on
    the current physical line. *)
Lemma obs_writes_wrap vals : forall pending k,
  Forall (fun x => String.length x = 16) pending ->
  length pending < 5 -> k mod 5 = length pending ->
  obs_writes k vals (join pending)
  = map obs_record_line (chunks 5 (pending ++ map fmt_value vals)).
Proof.
  induction vals as [|val tl IH]; intros pending k H16 Hp Hk.
  { cbn [map obs_writes]. rewrite app_nil_r, join_nonempty by done.
    destruct pending as [|x pending]; [done|].
    rewrite chunks_short by (done || lia). done. }
  cbn [map obs_writes].
  assert (join pending +:+ fmt_value val = join (pending ++ [fmt_value val]))
    as Hline.
  { rewrite join_app. cbn. by rewrite str_app_nil_r. }
  rewrite Hline.
  replace (pending ++ fmt_value val :: map fmt_value tl)
    with ((pending ++ [fmt_value val]) ++ map fmt_value tl)
    by (by rewrite <- app_assoc).
  destruct (decide (length pending = 4)) as [H4|H4].
  - replace ((k + 1) mod 5 =? 0) with true
      by (symmetry; apply Nat.eqb_eq; revert Hk H4; mod_lia).
    rewrite (chunks_cons_group 5 (pending ++ [fmt_value val]))
      by (rewrite ?length_app; cbn; lia).
    cbn [map]. f_equal.
    apply (IH [] (S k)); [constructor | cbn; lia |].
    rewrite H4 in Hk. clear -Hk. revert Hk. cbn [length]. mod_lia.
  - assert ((k + 1) mod 5 <> 0 /\ (k + 1) mod 5 = length pending + 1)
      as [Hne Hk'].
    { clear -Hk H4 Hp. generalize dependent (length pending). mod_lia. }
    apply Nat.eqb_neq in Hne. rewrite Hne.
    apply IH.
    + apply Forall_app. split; [done|].
      constructor; [apply length_fmt_value | constructor].
    + rewrite length_app. cbn. lia.
    + rewrite length_app. cbn. by rewrite <- Hk', Nat.add_1_r.
Qed.

Lemma find_seq_first (P : nat -> bool) len : forall start idx,
  List.find P (seq start len) = Some idx ->
  start <= idx < start + len /\ P idx = true
  /\ forall j, start <= j < idx -> P j = false.
Proof.
  induction len as [|len IH]; intros start idx; [done|].
  cbn [seq List.find]. destruct (P start) eqn:Hs.
  - intros [= <-]. repeat split; [lia..|done|]. intros j Hj. lia.
  - intros Hf. destruct (IH _ _ Hf) as (Hr & Hp & Hfirst).
    repeat split; [lia..|done|]. intros j Hj.
    destruct (decide (j = start)) as [->|]; [done|]. apply Hfirst. lia.
Qed.

Lemma find_seq_none (P : nat -> bool) len : forall start,
  List.find P (seq start len) = None ->
  forall j, start <= j < start + len -> P j = false.
Proof.
  induction len as [|len IH]; intros start Hf j Hj; [lia|].
  cbn [seq List.find] in Hf. destruct (P start) eqn:Hs; [done|].
  destruct (decide (j = start)) as [->|]; [done|]. apply (IH _ Hf). lia.
Qed.

Lemma sat_values_lookup gps sat_line k :
  k < length gps ->
  sat_values gps sat_line !! k
  = Some (if 3 + k * 16 <? String.length sat_line
          then slice (3 + k * 16) (3 + k * 16 + 16) sat_line
          else spaces 16).
Proof.
  intros Hk. unfold sat_values.
  by rewrite list_lookup_fmap, lookup_seq_lt.
Qed.

(** [sat_data] holds, for every retained id, the fields of a line that
    was read with this id. *)
Lemma collect_sats_data gps (all : list string) n : forall rest sats sat_data,
  rest ⊆ all ->
  (forall s, s ∈ sats -> exists line,
     line ∈ all /\ strip (slice 0 3 line) = s
     /\ sat_data !! s = Some (sat_values gps line)) ->
  let '(sats', sat_data', _) := collect_sats gps n rest sats sat_data in
  forall s, s ∈ sats' -> exists line,
    line ∈ all /\ strip (slice 0 3 line) = s
    /\ sat_data' !! s = Some (sat_values gps line).
Proof.
  induction n as [|n IH]; intros rest sats sat_data Hsub Hinv; [done|].
  cbn [collect_sats]. destruct rest as [|sat_line rest]; [done|].
  assert (rest ⊆ all) as Hsub'.
  { intros x Hx. apply Hsub. by right. }
  destruct (negb _).
  - specialize (IH rest sats sat_data Hsub' Hinv).
    by destruct (collect_sats _ _ _ _ _) as [[s d] k].
  - set (sat_id := strip (slice 0 3 sat_line)).
    specialize (IH rest (sats ++ [sat_id])
                  (<[sat_id := sat_values gps sat_line]> sat_data) Hsub').
    destruct (collect_sats _ _ _ _ _) as [[s d] k]. apply IH.
    intros s' Hs'. destruct (decide (s' = sat_id)) as [->|Hne].
    + exists sat_line. split; [apply Hsub; by left|].
      split; [done|]. by rewrite lookup_insert_eq.
    + apply elem_of_app in Hs' as [Hs' | Hs'%list_elem_of_singleton]; [|done].
      destruct (Hinv s' Hs') as (line & ? & ? & ?).
      exists line. by rewrite lookup_insert_ne.
Qed.

(** C6: a satellite record is written as one 16-column triple per target
    code, five to a physical line. The value of a target code is the field
    at the first source index mapped to it; an index beyond the fields,
    and a target code without source, give 16 blanks. The fields of a raw
    line are its 16-column slices from column 3 on, 16 blanks where the
    line has ended. The fields kept for a satellite are those of a line
    read with its id. The triple written for a value is its text without
    the trailing white space, split in 14+1+1 columns: the number,
    right-justified, and two flags, with blanks where the text is short. *)
Theorem satellite_record_slots gps types mapping sat_data sat :
  let values := default [] (sat_data !! sat) in
  let triples :=
    map (fun t => fmt_value (rnx2_value gps mapping values t)) types in
  sat_writes gps types mapping sat_data sat
    = map obs_record_line (chunks 5 triples)
  /\ length triples = length types
  /\ Forall (fun x => String.length x = 16) triples
  /\ (forall t,
        match first_source gps mapping t with
        | Some idx =>
            idx < length gps
            /\ mapping !! idx = Some (Some t)
            /\ (forall j, j < idx -> mapping !! j <> Some (Some t))
            /\ rnx2_value gps mapping values t
               = (if idx <? length values then nth idx values ""
                  else spaces 16)
        | None =>
            (forall j, j < length gps -> mapping !! j <> Some (Some t))
            /\ rnx2_value gps mapping values t = spaces 16
        end)
  /\ fmt_value (spaces 16) = spaces 16
  /\ (forall val,
        let v := rstrip val in
        let num := fmt_rs 14 (slice 0 14 v) in
        let lli := fmt_s 1 (slice 14 15 v) in
        let sig := fmt_s 1 (slice 15 16 v) in
        fmt_value val = num +:+ lli +:+ sig
        /\ String.length num = 14
        /\ String.length lli = 1
        /\ String.length sig = 1)
  /\ (forall sat_line k, k < length gps ->
        sat_values gps sat_line !! k
        = Some (if 3 + k * 16 <? String.length sat_line
                then slice (3 + k * 16) (3 + k * 16 + 16) sat_line
                else spaces 16))
  /\ (forall n rest sats' sat_data' k,
        collect_sats gps n rest [] ∅ = (sats', sat_data', k) ->
        forall s, s ∈ sats' -> exists line,
          line ∈ rest /\ strip (slice 0 3 line) = s
          /\ sat_data' !! s = Some (sat_values gps line)).
Proof.
  intros values triples. split_and!.
  - unfold sat_writes. fold values.
    change "" with (join []).
    rewrite (obs_writes_wrap _ [] 0) by (done || cbn; lia).
    cbn [app]. unfold triples. by rewrite map_map.
  - unfold triples. by rewrite length_map.
  - unfold triples. apply Forall_map, Forall_forall.
    intros t _. apply length_fmt_value.
  - intros t. unfold rnx2_value.
    destruct (first_source gps mapping t) as [idx|] eqn:Hf; unfold first_source in Hf.
    + apply find_seq_first in Hf as (Hr & Hp & Hfirst).
      split_and!; [lia | by apply bool_decide_eq_true in Hp | | done].
      intros j Hj. specialize (Hfirst j ltac:(lia)).
      by apply bool_decide_eq_false in Hfirst.
    + split; [|done]. intros j Hj.
      pose proof (find_seq_none _ _ _ Hf j ltac:(lia)) as Hn.
      by apply bool_decide_eq_false in Hn.
  - apply fmt_value_blank.
  - intros val v num lli sig. split; [apply fmt_value_split|].
    unfold num, lli, sig, fmt_rs, fmt_s.
    rewrite length_rjust, !length_ljust.
    pose proof (length_slice 0 14 v). pose proof (length_slice 14 15 v).
    pose proof (length_slice 15 16 v). lia.
  - intros sat_line k Hk. by apply sat_values_lookup.
  - intros n rest sats' sd' k Hc s Hs.
    pose proof (collect_sats_data gps rest n rest [] ∅ ltac:(done)) as Hd.
    rewrite Hc in Hd. apply Hd; [|done]. by intros ? ?%elem_of_nil.
Qed.

End Records.

(** ** More on the header parser and the entry point *)

Section ParserOutcome.
Context `{PyFloat}.
Import Py.

(** A record that does not end the header leaves [header_end_line] as it
    is; the record that ends it is the terminator, and stores its index. *)
Lemma header_record_cases i line rest h :
  match header_record i line rest h with
  | Next _ h' => header_end_line h' = header_end_line h
  | Break h' =>
      label_of line = "END OF HEADER" /\ h' = set_header_end_line i h
  | Fail _ => True
  end.
Proof.
  unfold header_record. remember (label_of line) as lbl eqn:Hlbl.
  repeat match goal with
  | |- context [if lbl == ?s then _ else _] =>
      destruct (lbl == s) eqn:?;
      [ first [ reflexivity
              | destruct (three_floats line); reflexivity
              | destruct (float_of_str _); reflexivity
              | idtac ] |]
  end; [| |reflexivity].
  - destruct (int _); [|exact I].
    destruct (scan_continuation _ _ _). reflexivity.
  - split; [by apply eqb_true | done].
Qed.

Lemma parse_loop_end_index skip i rest h h' :
  parse_loop skip i rest h = Ok h' ->
  header_end_line h' = header_end_line h
  \/ exists k l, header_end_line h' = i + k
       /\ rest !! k = Some l /\ label_of l = "END OF HEADER".
Proof.
  revert skip i h. induction rest as [|line rest IH]; intros skip i h.
  { intros [= ->]. by left. }
  cbn [parse_loop].
  assert (forall sk h1, header_end_line h1 = header_end_line h ->
            parse_loop sk (S i) rest h1 = Ok h' ->
            header_end_line h' = header_end_line h
            \/ exists k l, header_end_line h' = i + k
                 /\ (line :: rest) !! k = Some l
                 /\ label_of l = "END OF HEADER") as Hnext.
  { intros sk h1 Heq [Hsame | (k & l & Hk & Hl & Hlab)]%IH.
    - left. congruence.
    - right. exists (S k), l. split; [lia | done]. }
  destruct skip as [|sk]; [|by apply Hnext].
  pose proof (header_record_cases i line rest h) as Hrec.
  destruct (header_record i line rest h) as [k h1|h1|e]; [by apply Hnext| |done].
  destruct Hrec as [Hlab ->]. intros [= <-]. right.
  exists 0, line. split; [cbn; lia | done].
Qed.

(** X1: [header_end_line] of a parsed header is either the default 0 or
    the index of a line labelled END OF HEADER; in particular it is an
    index into the file whenever the file is not empty. *)
Theorem header_end_line_indexes_terminator lines h :
  _parse_rinex3_header lines = Ok h ->
  (header_end_line h = 0
   \/ exists l, lines !! header_end_line h = Some l
        /\ label_of l = "END OF HEADER")
  /\ (lines <> [] -> header_end_line h < length lines).
Proof.
  intros Hp. unfold _parse_rinex3_header in Hp.
  apply parse_loop_end_index in Hp as [Hsame | (k & l & Hk & Hl & Hlab)].
  - cbn in Hsame. split; [by left|]. intros Hne. rewrite Hsame.
    destruct lines; [done | cbn; lia].
  - cbn in Hk. subst k. split; [right; by exists l|].
    intros _. by eapply lookup_lt_Some.
Qed.

Lemma parse_loop_returns skip i rest h :
  (forall l, l ∈ rest -> label_of l = "SYS / # / OBS TYPES" ->
     int (strip (slice 3 6 l)) <> None) ->
  exists h', parse_loop skip i rest h = Ok h'.
Proof.
  revert skip i h. induction rest as [|line rest IH]; intros skip i h Hall.
  { by exists h. }
  assert (forall l, l ∈ rest -> label_of l = "SYS / # / OBS TYPES" ->
            int (strip (slice 3 6 l)) <> None) as Hrest.
  { intros l Hl. apply Hall. by right. }
  cbn [parse_loop]. destruct skip as [|sk]; [|by apply IH].
  destruct (header_record i line rest h) as [k h1|h1|e] eqn:Hrec.
  - by apply IH.
  - by exists h1.
  - apply header_record_fail in Hrec as (_ & Hlab & Hint).
    exfalso. by apply (Hall line); [left|..].
Qed.

(** X2: a file that is not empty and in which every observation-type
    declaration has an integer count is converted without an exception:
    the call returns a boolean. *)
Theorem convert_returns_boolean input_file :
  readlines input_file <> [] ->
  (forall l, l ∈ readlines input_file ->
     label_of l = "SYS / # / OBS TYPES" ->
     int (strip (slice 3 6 l)) <> None) ->
  exists b out, convert_rinex3_to_rinex2 input_file = (Ok b, out).
Proof.
  intros Hne Hall. unfold convert_rinex3_to_rinex2.
  destruct (readlines input_file) as [|line0 rest]; [done|].
  destruct (negb _); [by eexists _, _|].
  destruct (parse_loop_returns 0 0 (line0 :: rest) initial_header Hall)
    as [h Hp].
  unfold _parse_rinex3_header. rewrite Hp.
  destruct (_build_obs_type_mapping h) as [types mapping].
  destruct types; by eexists _, _.
Qed.

(** X3: the output file is written exactly when the call returns [True];
    a [False] result and an exception leave no output file. *)
Theorem output_written_iff_success input_file :
  is_Some (convert_rinex3_to_rinex2 input_file).2
  <-> (convert_rinex3_to_rinex2 input_file).1 = Ok true.
Proof.
  unfold convert_rinex3_to_rinex2.
  destruct (readlines input_file) as [|line0 rest].
  { cbn. split; [by intros [? ?] | done]. }
  destruct (negb _); [by cbn|].
  destruct (_parse_rinex3_header (line0 :: rest)) as [h|e].
  - destruct (_build_obs_type_mapping h) as [types mapping].
    destruct types; cbn; [split; [by intros [? ?] | done] | done].
  - cbn. split; [by intros [? ?] | done].
Qed.

End ParserOutcome.

Lemma header_end_line_indexes_terminator_witness :
  exists h, _parse_rinex3_header (Py.readlines file_no_gps) = Ok h
    /\ header_end_line h = 2
    /\ exists l, Py.readlines file_no_gps !! 2 = Some l
         /\ label_of l = "END OF HEADER".
Proof.
  eexists. split; [reflexivity|].
  edestruct (header_end_line_indexes_terminator (Py.readlines file_no_gps))
    as [[H0 | Hend] _]; [reflexivity | | ].
  - vm_compute in H0. discriminate.
  - split; [vm_compute; reflexivity | exact Hend].
Defined.

Lemma convert_returns_boolean_witness :
  exists b out, convert_rinex3_to_rinex2 file_no_terminator = (Ok b, out).
Proof.
  apply (convert_returns_boolean file_no_terminator).
  - vm_compute. discriminate.
  - intros l Hl Hlab. vm_compute in Hl.
    repeat (apply elem_of_cons in Hl as [->|Hl];
            [first [ vm_compute in Hlab; discriminate
                   | vm_compute; discriminate ]|]).
    by apply elem_of_nil in Hl.
Defined.

(** ** Declarations that are complete *)

Section CompleteDeclaration.
Context `{PyFloat}.
Import Py.

Lemma scan_continuation_complete num_obs conts post : forall obs,
  Forall (fun l => label_of l = "SYS / # / OBS TYPES") conts ->
  (forall k, k < length conts ->
     (Z.of_nat (length (obs ++ flat_map code_tokens (take k conts)))
        < num_obs)%Z) ->
  (num_obs <= Z.of_nat (length (obs ++ flat_map code_tokens conts)))%Z ->
  scan_continuation num_obs obs (conts ++ post)
  = (obs ++ flat_map code_tokens conts, length conts).
Proof.
  induction conts as [|c conts IH]; intros obs Hlab Hneed Hmet.
  - cbn [flat_map app length] in *. rewrite app_nil_r in *.
    destruct post; cbn [scan_continuation];
      by destruct (Z.ltb_spec (Z.of_nat (length obs)) num_obs); [lia|].
  - apply Forall_cons_1 in Hlab as [Hc Hlab].
    cbn [app scan_continuation length].
    pose proof (Hneed 0 ltac:(cbn; lia)) as H0.
    cbn [take flat_map] in H0. rewrite app_nil_r in H0.
    destruct (Z.ltb_spec (Z.of_nat (length obs)) num_obs); [|lia].
    rewrite Hc, String.eqb_refl.
    fold (code_tokens c). rewrite (IH (obs ++ code_tokens c) Hlab).
    + cbn [flat_map]. by rewrite app_assoc.
    + intros k Hk. specialize (Hneed (S k) ltac:(cbn; lia)).
      cbn [take flat_map] in Hneed. by rewrite <- app_assoc.
    + cbn [flat_map] in Hmet. by rewrite <- app_assoc.
Qed.

(** X4: when the declaration line and the continuation lines that follow
    it supply the declared number of codes, each of these lines being
    needed, the table gets the first [num_obs] codes and parsing resumes
    on the line right after the last continuation line: no record is
    passed over. *)
Theorem declaration_complete i line conts post h num_obs :
  label_of line = "SYS / # / OBS TYPES" ->
  int (strip (slice 3 6 line)) = Some num_obs ->
  Forall (fun l => label_of l = "SYS / # / OBS TYPES") conts ->
  (forall k, k < length conts ->
     (Z.of_nat (length (code_tokens line
                        ++ flat_map code_tokens (take k conts)))
        < num_obs)%Z) ->
  (num_obs
     <= Z.of_nat (length (code_tokens line ++ flat_map code_tokens conts)))%Z ->
  parse_loop 0 i (line :: conts ++ post) h
  = parse_loop 0 (i + length conts + 1) post
      (set_obs_types
         (<[slice 0 1 line :=
              list_upto num_obs
                (code_tokens line ++ flat_map code_tokens conts)]>
            (obs_types h)) h).
Proof.
  intros Hl Hint Hconts Hneed Hmet. cbn [parse_loop].
  rewrite (header_record_sys _ _ _ _ Hl), Hint.
  fold (code_tokens line).
  rewrite (scan_continuation_complete _ _ _ _ Hconts Hneed Hmet).
  cbv beta iota. rewrite parse_loop_skip. f_equal. lia.
Qed.

End CompleteDeclaration.

Lemma declaration_complete_witness :
  parse_loop 0 1
    (short_sys_line :: [sys_continuation_line] ++ [marker_line; end_line])
    initial_header
  = parse_loop 0 3 [marker_line; end_line]
      (set_obs_types (<[ "G" := ["C1C"; "L1C"; "S1C"] ]> ∅) initial_header).
Proof.
  apply (declaration_complete 1 short_sys_line [sys_continuation_line]
           [marker_line; end_line] initial_header 3).
  - vm_compute. reflexivity.
  - vm_compute. reflexivity.
  - repeat constructor.
  - intros k Hk. destruct k as [|k]; [vm_compute; reflexivity | cbn in Hk; lia].
  - vm_compute. discriminate.
Defined.

(** ** The mapper's output in the header and in the records *)

Section MapperOutput.
Context `{PyFloat}.
Import Py.

Lemma OBS_MAPPING_legacy c t : OBS_MAPPING !! c = Some t -> t ∈ legacy_codes.
Proof.
  unfold OBS_MAPPING. intros Hin%elem_of_list_to_map_2.
  repeat (apply elem_of_cons in Hin as [[= _ ->]|Hin];
          [apply (bool_decide_unpack _); vm_compute; exact I|]).
  by apply elem_of_nil in Hin.
Qed.

Lemma build_types_legacy h t :
  t ∈ (_build_obs_type_mapping h).1 -> t ∈ legacy_codes.
Proof.
  unfold _build_obs_type_mapping.
  destruct (build_loop_inv (gps_types_of h) [] 0 [] ∅ ∅) as (_ & Hmem & _).
  { intros x. by rewrite elem_of_empty, elem_of_nil. }
  { apply mapper_inv_nil. }
  intros (p & c & _ & Ht)%Hmem. by eapply OBS_MAPPING_legacy.
Qed.

Lemma build_types_NoDup h : NoDup (_build_obs_type_mapping h).1.
Proof.
  unfold _build_obs_type_mapping.
  destruct (build_loop_inv (gps_types_of h) [] 0 [] ∅ ∅) as (Hnd & _ & _);
    [|apply mapper_inv_nil|done].
  intros x. by rewrite elem_of_empty, elem_of_nil.
Qed.

Lemma length_columns w g :
  Forall (fun x => String.length x <= w) g ->
  String.length (columns w g) = w * length g.
Proof.
  unfold columns. induction 1 as [|x g Hx Hg IH]; [cbn; lia|].
  cbn [map join foldr length]. unfold join in IH.
  rewrite str_length_app, IH. unfold fmt_rs. rewrite length_rjust. lia.
Qed.

Lemma length_count_field n :
  n <= 14 -> String.length (fmt_d 6 (Z.of_nat n)) = 6.
Proof.
  intros Hn. do 15 (destruct n as [|n]; [reflexivity|]). lia.
Qed.

(** X5: the mapper lists at most 14 target codes, all of two characters
    and all from the table; the code record of the header therefore has at
    most two physical lines, each of 79 columns and a line break. *)
Theorem target_codes_bounded h :
  let types := (_build_obs_type_mapping h).1 in
  length types <= 14
  /\ Forall (fun t => t ∈ legacy_codes /\ String.length t = 2) types
  /\ length (obs_type_lines types) <= 2
  /\ Forall (fun l => String.length l = 80) (obs_type_lines types).
Proof.
  intros types.
  assert (Forall (fun t => t ∈ legacy_codes /\ String.length t = 2) types)
    as Hleg.
  { apply Forall_forall. intros t Ht. apply (build_types_legacy h) in Ht.
    split; [done|].
    unfold legacy_codes in Ht.
    repeat (apply elem_of_cons in Ht as [->|Ht]; [reflexivity|]).
    by apply elem_of_nil in Ht. }
  assert (length types <= 14) as Hlen.
  { change 14 with (length legacy_codes). apply submseteq_length.
    apply NoDup_submseteq; [apply build_types_NoDup|].
    intros t Ht. by apply (build_types_legacy h). }
  split; [done|]. split; [done|].
  rewrite obs_type_lines_chunks. split.
  - rewrite length_imap, length_chunks by lia.
    clear -Hlen. generalize dependent (length types). mod_lia.
  - apply Forall_lookup. intros i l. rewrite list_lookup_imap.
    destruct (chunks 9 types !! i) as [g|] eqn:Hg; [|done].
    intros [= <-].
    assert (0 < length g <= 9) as Hbound.
    { eapply (Forall_lookup_1 _ _ _ _ (chunks_bounds 9 types ltac:(lia)) Hg). }
    assert (Forall (fun x => String.length x <= 6) g) as Hg6.
    { apply Forall_forall. intros x Hx.
      assert (x ∈ types) as Hxt.
      { rewrite <- (concat_chunks 9 types) by lia.
        apply list_elem_of_In, in_concat. exists g.
        split; apply list_elem_of_In; [by eapply list_elem_of_lookup_2 | done]. }
      rewrite Forall_forall in Hleg. destruct (Hleg x Hxt) as [_ ->]. lia. }
    unfold code_record_line.
    rewrite !str_length_app, length_ljust, str_length_app,
      (length_columns 6 g Hg6).
    assert (String.length (if i =? 0 then fmt_d 6 (Z.of_nat (length types))
                           else "      ") = 6) as ->.
    { destruct (i =? 0); [by apply length_count_field | done]. }
    cbn [String.length NL]. lia.
Qed.

(** X6: for the mapper's own result, every target code has a source
    index, the first declared code that the table translates to it. The
    value taken for it is the 16-column field of the satellite line at
    that index, or 16 blanks when the line ends before it; what is written
    is this text without its trailing white space, as a number
    right-justified in 14 columns and two flags of one column, blank
    where the text is short. *)
Theorem target_code_source h t :
  let gps := gps_types_of h in
  let mapping := (_build_obs_type_mapping h).2 in
  t ∈ (_build_obs_type_mapping h).1 ->
  exists idx c,
    first_source gps mapping t = Some idx
    /\ gps !! idx = Some c
    /\ OBS_MAPPING !! c = Some t
    /\ (forall j c', j < idx -> gps !! j = Some c' ->
          OBS_MAPPING !! c' <> Some t)
    /\ forall sat_line,
         let field :=
           if 3 + idx * 16 <? String.length sat_line
           then slice (3 + idx * 16) (3 + idx * 16 + 16) sat_line
           else spaces 16 in
         rnx2_value gps mapping (sat_values gps sat_line) t = field
         /\ fmt_value (rnx2_value gps mapping (sat_values gps sat_line) t)
            = fmt_rs 14 (slice 0 14 (rstrip field))
              +:+ fmt_s 1 (slice 14 15 (rstrip field))
              +:+ fmt_s 1 (slice 15 16 (rstrip field)).
Proof.
  intros gps mapping Ht.
  assert (forall idx c, gps !! idx = Some c ->
            mapping !! idx = Some (OBS_MAPPING !! c)) as Hmap.
  { intros idx c Hidx. by apply (build_loop_mapping gps 0 [] ∅ ∅ idx c). }
  assert (exists p, source_of gps t p) as (p & cp & Hp & Hcp).
  { unfold _build_obs_type_mapping in Ht.
    destruct (build_loop_inv gps [] 0 [] ∅ ∅) as (_ & Hmem & _);
      [|apply mapper_inv_nil|by apply Hmem].
    intros x. by rewrite elem_of_empty, elem_of_nil. }
  destruct (first_source gps mapping t) as [idx|] eqn:Hf;
    unfold first_source in Hf.
  - apply find_seq_first in Hf as (Hr & Hidx & Hfirst).
    apply bool_decide_eq_true in Hidx.
    destruct (lookup_lt_is_Some_2 gps idx) as [c Hc]; [lia|].
    exists idx, c. split; [done|]. split; [done|].
    rewrite (Hmap _ _ Hc) in Hidx. injection Hidx as Hidx.
    split; [done|]. split.
    + intros j c' Hj Hc' Ht'. specialize (Hfirst j ltac:(lia)).
      apply bool_decide_eq_false in Hfirst. apply Hfirst.
      by rewrite (Hmap _ _ Hc'), Ht'.
    + intros sat_line field.
      enough (rnx2_value gps mapping (sat_values gps sat_line) t = field)
        as Hv by (split; [done|]; rewrite Hv; apply fmt_value_split).
      unfold field, rnx2_value, first_source.
      assert (List.find
                (fun idx0 => bool_decide (mapping !! idx0 = Some (Some t)))
                (seq 0 (length gps)) = Some idx) as ->.
      { destruct (List.find _ _) as [idx'|] eqn:Hf'.
        - apply find_seq_first in Hf' as (Hr' & Hidx' & Hfirst').
          apply bool_decide_eq_true in Hidx'. f_equal.
          destruct (Nat.lt_trichotomy idx idx') as [Hlt | [-> | Hlt]]; [|done|].
          + specialize (Hfirst' idx ltac:(lia)).
            apply bool_decide_eq_false in Hfirst'.
            exfalso. apply Hfirst'. by rewrite (Hmap _ _ Hc), Hidx.
          + specialize (Hfirst idx' ltac:(lia)).
            by apply bool_decide_eq_false in Hfirst.
        - pose proof (find_seq_none _ _ _ Hf' idx ltac:(lia)) as Hn.
          apply bool_decide_eq_false in Hn. exfalso. apply Hn.
          by rewrite (Hmap _ _ Hc), Hidx. }
      unfold sat_values at 1. rewrite length_map, length_seq.
      destruct (Nat.ltb_spec idx (length gps)); [|lia].
      rewrite nth_lookup, sat_values_lookup by lia. done.
  - exfalso. apply lookup_lt_Some in Hp as Hlt.
    pose proof (find_seq_none _ _ _ Hf p ltac:(lia)) as Hn.
    apply bool_decide_eq_false in Hn. apply Hn.
    by rewrite (Hmap _ _ Hp), Hcp.
Qed.

End MapperOutput.

Lemma target_code_source_witness :
  exists idx c,
    first_source (gps_types_of sample_header)
      (_build_obs_type_mapping sample_header).2 "L1" = Some idx
    /\ gps_types_of sample_header !! idx = Some c
    /\ OBS_MAPPING !! c = Some "L1"
    /\ (forall j c', j < idx -> gps_types_of sample_header !! j = Some c' ->
          OBS_MAPPING !! c' <> Some "L1")
    /\ forall sat_line,
         let field :=
           if 3 + idx * 16 <? String.length sat_line
           then Py.slice (3 + idx * 16) (3 + idx * 16 + 16) sat_line
           else Py.spaces 16 in
         let value :=
           rnx2_value (gps_types_of sample_header)
             (_build_obs_type_mapping sample_header).2
             (sat_values (gps_types_of sample_header) sat_line) "L1" in
         value = field
         /\ fmt_value value
            = Py.fmt_rs 14 (Py.slice 0 14 (Py.rstrip field))
              +:+ Py.fmt_s 1 (Py.slice 14 15 (Py.rstrip field))
              +:+ Py.fmt_s 1 (Py.slice 15 16 (Py.rstrip field)).
Proof.
  apply (target_code_source sample_header "L1").
  apply (bool_decide_unpack _). vm_compute. exact I.
Defined.

(** ** The satellites of an epoch *)

Section SatelliteCollection.
Context `{PyFloat}.
Import Py.
Implicit Types (gps types : list string) (mapping : gmap nat (option string)).

(** X7: the satellites retained for an epoch are the ids of the lines
    read that start with 'G', in their order and with their repetitions;
    the loop reads the declared number of lines, or the lines that are
    left when there are fewer. *)
Theorem retained_ids_of_lines gps n rest :
  (collect_sats gps n rest [] ∅).1.1
  = List.filter (startswith "G") (map sat_id_of (take n rest))
  /\ (collect_sats gps n rest [] ∅).2 = Nat.min n (length rest).
Proof.
  rewrite collect_sats_take.
  destruct (collect_sats_ids_exact gps (take n rest) [] ∅) as [H1 H2].
  rewrite H1, H2. by rewrite length_take.
Qed.

Lemma collect_sats_data_kept gps ls s : forall sats sat_data,
  Forall (fun l => sat_id_of l <> s) ls ->
  (collect_sats gps (length ls) ls sats sat_data).1.2 !! s = sat_data !! s.
Proof.
  induction ls as [|l ls IH]; intros sats sat_data Hall; [done|].
  apply Forall_cons_1 in Hall as [Hl Hall].
  cbn [length]. rewrite collect_sats_cons.
  destruct (startswith "G" (sat_id_of l)).
  - specialize (IH (sats ++ [sat_id_of l])
                   (<[sat_id_of l := sat_values gps l]> sat_data) Hall).
    destruct (collect_sats _ _ _ _ _) as [[a d] k]. cbn in *.
    by rewrite IH, lookup_insert_ne.
  - specialize (IH sats sat_data Hall).
    by destruct (collect_sats _ _ _ _ _) as [[a d] k].
Qed.

Lemma collect_sats_data_last gps pre l post : forall sats sat_data,
  startswith "G" (sat_id_of l) = true ->
  Forall (fun l' => sat_id_of l' <> sat_id_of l) post ->
  (collect_sats gps (length (pre ++ l :: post)) (pre ++ l :: post)
     sats sat_data).1.2 !! sat_id_of l
  = Some (sat_values gps l).
Proof.
  induction pre as [|p pre IH]; intros sats sat_data Hg Hpost.
  - cbn [app length]. rewrite collect_sats_cons, Hg.
    pose proof (collect_sats_data_kept gps post (sat_id_of l)
                  (sats ++ [sat_id_of l])
                  (<[sat_id_of l := sat_values gps l]> sat_data) Hpost) as Hk.
    destruct (collect_sats _ _ _ _ _) as [[a d] k]. cbn in *.
    by rewrite Hk, lookup_insert_eq.
  - cbn [app length]. rewrite collect_sats_cons.
    destruct (startswith "G" (sat_id_of p)).
    + specialize (IH (sats ++ [sat_id_of p])
                     (<[sat_id_of p := sat_values gps p]> sat_data) Hg Hpost).
      by destruct (collect_sats _ _ _ _ _) as [[a d] k].
    + specialize (IH sats sat_data Hg Hpost).
      by destruct (collect_sats _ _ _ _ _) as [[a d] k].
Qed.

(** X8: when several of the lines read carry the same id, the fields kept
    for this id are those of the last such line: the record of an earlier
    line with the same id is overwritten. *)
Theorem last_line_of_id_wins gps n rest pre l post :
  take n rest = pre ++ l :: post ->
  startswith "G" (sat_id_of l) = true ->
  Forall (fun l' => sat_id_of l' <> sat_id_of l) post ->
  (collect_sats gps n rest [] ∅).1.2 !! sat_id_of l
  = Some (sat_values gps l).
Proof.
  intros Htake Hg Hpost. rewrite collect_sats_take, Htake.
  by apply collect_sats_data_last.
Qed.

(** X9: an epoch whose start line declares more satellites than there are
    lines left in the file is still written, with the satellites that are
    there. *)
Theorem truncated_epoch_emitted gps types mapping line ep sat_lines :
  startswith ">" line = true ->
  parse_epoch line = Some ep ->
  (Z.of_nat (length sat_lines) <= num_sats ep)%Z ->
  convert_loop gps types mapping 0 (line :: sat_lines)
  = epoch_output gps types mapping ep sat_lines.
Proof.
  intros Hs Hp Hn. cbn [convert_loop]. rewrite Hs, Hp.
  rewrite collect_sats_take, take_ge by lia. unfold epoch_output.
  pose proof (collect_sats_read gps sat_lines [] ∅) as Hk.
  destruct (collect_sats gps (length sat_lines) sat_lines [] ∅)
    as [[sats sd] k].
  cbn in Hk. subst k. rewrite convert_loop_skip_all.
  destruct sats; [done | by rewrite app_nil_r].
Qed.

Lemma collect_sats_snoc_other gps next ls : forall sats sat_data,
  startswith "G" (sat_id_of next) = false ->
  (collect_sats gps (length (ls ++ [next])) (ls ++ [next]) sats sat_data).1
  = (collect_sats gps (length ls) ls sats sat_data).1.
Proof.
  induction ls as [|l ls IH]; intros sats sd Hnext.
  - cbn [app length collect_sats]. fold (sat_id_of next).
    by rewrite Hnext.
  - cbn [app length]. rewrite !collect_sats_cons.
    destruct (startswith "G" (sat_id_of l)).
    + specialize (IH (sats ++ [sat_id_of l])
                     (<[sat_id_of l := sat_values gps l]> sd) Hnext).
      destruct (collect_sats gps (length (ls ++ [next])) _ _ _) as [[a d] k].
      by destruct (collect_sats gps (length ls) _ _ _) as [[a' d'] k'].
    + specialize (IH sats sd Hnext).
      destruct (collect_sats gps (length (ls ++ [next])) _ _ _) as [[a d] k].
      by destruct (collect_sats gps (length ls) _ _ _) as [[a' d'] k'].
Qed.

(** X10: an epoch that declares one satellite more than it has reads the
    next line as a satellite line. When this line has no 'G' id, as the
    start line of the next epoch, it is dropped without a trace: the
    output is that of the epoch, and scanning resumes after the line. *)
Theorem overdeclared_epoch_swallows_line gps types mapping
    line ep sat_lines next rest :
  startswith ">" line = true ->
  parse_epoch line = Some ep ->
  num_sats ep = Z.of_nat (length sat_lines + 1) ->
  startswith "G" (sat_id_of next) = false ->
  convert_loop gps types mapping 0 (line :: sat_lines ++ next :: rest)
  = epoch_output gps types mapping ep sat_lines
    ++ convert_loop gps types mapping 0 rest.
Proof.
  intros Hs Hp Hn Hnext. cbn [convert_loop]. rewrite Hs, Hp, Hn, Nat2Z.id.
  replace (sat_lines ++ next :: rest) with ((sat_lines ++ [next]) ++ rest)
    by (by rewrite <- app_assoc).
  replace (length sat_lines + 1) with (length (sat_lines ++ [next]))
    by (rewrite length_app; cbn; lia).
  rewrite collect_sats_app. unfold epoch_output.
  pose proof (collect_sats_snoc_other gps next sat_lines [] ∅ Hnext) as Hd.
  pose proof (collect_sats_read gps (sat_lines ++ [next]) [] ∅) as Hk.
  destruct (collect_sats gps (length (sat_lines ++ [next])) _ _ _)
    as [[sats sd] k].
  destruct (collect_sats gps (length sat_lines) sat_lines [] ∅)
    as [[sats' sd'] k'].
  cbn in Hd, Hk. injection Hd as -> ->. subst k.
  rewrite convert_loop_skip. by destruct sats'.
Qed.

(** X11: data in which no line starts with '>' gives no output at all. *)
Theorem no_epoch_marker_no_output lines data_start h types mapping :
  Forall (fun l => startswith ">" l = false) (drop data_start lines) ->
  _convert_data lines data_start h types mapping = [].
Proof.
  intros Hall. unfold _convert_data.
  rewrite <- (app_nil_r (drop data_start lines)).
  by rewrite convert_loop_other_lines.
Qed.

End SatelliteCollection.

Lemma last_line_of_id_wins_witness :
  (collect_sats ["C1C"; "L1C"] 3 cut_epoch_sats [] ∅).1.2 !! sat_id_of cut_sat_second
  = Some (sat_values ["C1C"; "L1C"] cut_sat_second).
Proof.
  apply (last_line_of_id_wins ["C1C"; "L1C"] 3 cut_epoch_sats
           [cut_sat_first] cut_sat_second []).
  - reflexivity.
  - vm_compute. reflexivity.
  - constructor.
Defined.

Lemma truncated_epoch_emitted_witness :
  convert_loop ["C1C"; "L1C"] ["C1"; "L1"] sample_mapping 0
    (cut_epoch_line :: cut_epoch_sats)
  = epoch_output ["C1C"; "L1C"] ["C1"; "L1"] sample_mapping cut_epoch
      cut_epoch_sats.
Proof.
  apply (truncated_epoch_emitted ["C1C"; "L1C"] ["C1"; "L1"] sample_mapping
           cut_epoch_line cut_epoch cut_epoch_sats).
  - vm_compute. reflexivity.
  - reflexivity.
  - vm_compute. discriminate.
Defined.

(** The cut epoch as it is written: two ids, and twice the fields of the
    second line. *)
Lemma cut_epoch_converted :
  Py.join (convert_loop ["C1C"; "L1C"] ["C1"; "L1"] sample_mapping 0
             (cut_epoch_line :: cut_epoch_sats))
  = cut_epoch_text.
Proof. vm_compute. reflexivity. Qed.

Lemma overdeclared_epoch_swallows_line_witness :
  convert_loop ["C1C"; "L1C"] ["C1"; "L1"] sample_mapping 0
    (epoch1_line :: [cut_sat_first] ++ epoch2_line :: epoch2_sats)
  = epoch_output ["C1C"; "L1C"] ["C1"; "L1"] sample_mapping
      {| yr := 2023; mo := 1; dy := 1; hr := 0; mn := 0;
         sc := {| DecimalFloat.mant := 0; DecimalFloat.scale := 7 |};
         flag := 0; num_sats := 2 |} [cut_sat_first]
    ++ convert_loop ["C1C"; "L1C"] ["C1"; "L1"] sample_mapping 0 epoch2_sats.
Proof.
  apply (overdeclared_epoch_swallows_line ["C1C"; "L1C"] ["C1"; "L1"]
           sample_mapping epoch1_line _ [cut_sat_first] epoch2_line
           epoch2_sats).
  - vm_compute. reflexivity.
  - reflexivity.
  - reflexivity.
  - vm_compute. reflexivity.
Defined.

Lemma no_epoch_marker_no_output_witness :
  _convert_data epoch1_sats 0 sample_header ["C1"; "L1"] sample_mapping = [].
Proof.
  apply no_epoch_marker_no_output. repeat constructor.
Defined.

(** ** The layout of the records and what they leave out *)

Section RecordLayout.
Context `{PyFloat}.
Import Py.
Implicit Types (gps types : list string) (mapping : gmap nat (option string)).

Lemma length_join_triples (g : list string) :
  Forall (fun x => String.length x = 16) g ->
  String.length (join g) = 16 * length g.
Proof.
  induction 1 as [|x g Hx Hg IH]; [done|].
  cbn [join foldr length]. unfold join in IH.
  rewrite str_length_app, Hx, IH. lia.
Qed.

Lemma sat_writes_groups gps types mapping sat_data sat :
  sat_writes gps types mapping sat_data sat
  = map obs_record_line
      (chunks 5 (map fmt_value
                   (map (rnx2_value gps mapping (default [] (sat_data !! sat)))
                      types))).
Proof.
  unfold sat_writes. change "" with (join []).
  by rewrite (obs_writes_wrap _ [] 0) by (done || cbn; lia).
Qed.

(** X12: every satellite record takes the same number of physical lines,
    the number of target codes divided by 5 and rounded up, whatever the
    satellite line holds; each line has between one and five 16-column
    fields and a line break. An epoch so takes one header write and that
    many lines for each satellite. *)
Theorem record_line_count gps types mapping ep sats sat_data sat :
  length (sat_writes gps types mapping sat_data sat) = (length types + 4) / 5
  /\ Forall (fun w => exists k, 0 < k <= 5 /\ String.length w = 16 * k + 1)
       (sat_writes gps types mapping sat_data sat)
  /\ length (emit_epoch gps types mapping ep sats sat_data)
     = 1 + length sats * ((length types + 4) / 5).
Proof.
  assert (forall s, length (sat_writes gps types mapping sat_data s)
                    = (length types + 4) / 5) as Hlen.
  { intros s. rewrite sat_writes_groups, length_map, length_chunks by lia.
    rewrite !length_map. f_equal. lia. }
  split; [apply Hlen|]. split.
  - rewrite sat_writes_groups. apply Forall_map, Forall_lookup.
    intros i g Hg.
    assert (0 < length g <= 5) as Hbound.
    { eapply (Forall_lookup_1 _ _ _ _ (chunks_bounds 5 _ ltac:(lia)) Hg). }
    assert (Forall (fun x => String.length x = 16) g) as H16.
    { apply Forall_forall. intros x Hx.
      assert (In x (concat (chunks 5 (map fmt_value
                (map (rnx2_value gps mapping (default [] (sat_data !! sat)))
                   types))))) as Hin.
      { apply in_concat. exists g.
        split; apply list_elem_of_In; [by eapply list_elem_of_lookup_2|done]. }
      rewrite concat_chunks in Hin by lia.
      apply in_map_iff in Hin as (v & <- & _). apply length_fmt_value. }
    exists (length g). split; [done|].
    unfold obs_record_line. rewrite str_length_app, length_join_triples by done.
    done.
  - unfold emit_epoch. cbn [length]. f_equal.
    induction sats as [|s sats IH]; [done|].
    cbn [flat_map length]. rewrite length_app, IH, Hlen. lia.
Qed.

(** X13: only the field at the first source index of each target code
    reaches the output: two records whose fields agree at these indices
    are written the same, whatever the other columns hold (the columns of
    codes without translation, and of later codes with a target code that
    is already listed). *)
Theorem other_columns_ignored gps types mapping sat_data sat_data' sat
    values values' :
  sat_data !! sat = Some values ->
  sat_data' !! sat = Some values' ->
  length values = length values' ->
  (forall t idx, t ∈ types -> first_source gps mapping t = Some idx ->
     values !! idx = values' !! idx) ->
  sat_writes gps types mapping sat_data sat
  = sat_writes gps types mapping sat_data' sat.
Proof.
  intros Hv Hv' Hlen Hsame. unfold sat_writes. rewrite Hv, Hv'.
  cbn [default from_option id]. f_equal.
  apply map_ext_in. intros t Ht%list_elem_of_In. unfold rnx2_value.
  destruct (first_source gps mapping t) as [idx|] eqn:Hf; [|done].
  rewrite Hlen, !nth_lookup. by rewrite (Hsame t idx Ht Hf).
Qed.

End RecordLayout.

Lemma other_columns_ignored_witness :
  sat_writes twin_codes ["C1"; "L1"] twin_mapping
    (<[ "G01" := twin_values ]> ∅) "G01"
  = sat_writes twin_codes ["C1"; "L1"] twin_mapping
      (<[ "G01" := twin_values' ]> ∅) "G01".
Proof.
  apply (other_columns_ignored twin_codes ["C1"; "L1"] twin_mapping
           _ _ "G01" twin_values twin_values').
  - vm_compute. reflexivity.
  - vm_compute. reflexivity.
  - reflexivity.
  - intros t idx Ht Hf.
    apply elem_of_cons in Ht as [->|Ht].
    { vm_compute in Hf. injection Hf as <-. reflexivity. }
    apply elem_of_cons in Ht as [->|Ht].
    { vm_compute in Hf. injection Hf as <-. reflexivity. }
    by apply elem_of_nil in Ht.
Defined.

(** ** Converting twice *)

Section Idempotence.
Context `{PyFloat}.
Import Py.

Lemma rev_app_app a b : String.rev_app a b = String.rev_app a "" +:+ b.
Proof.
  revert b. induction a as [|c a IH]; intros b; [done|].
  cbn [String.rev_app]. rewrite (IH (String c b)), (IH (String c "")).
  by rewrite str_app_assoc.
Qed.

Lemma rev_cons c s : String.rev (String c s) = String.rev s +:+ String c "".
Proof. unfold String.rev. cbn [String.rev_app]. apply rev_app_app. Qed.

Lemma rev_app_distr a b :
  String.rev (a +:+ b) = String.rev b +:+ String.rev a.
Proof.
  induction a as [|c a IH]; [by rewrite str_app_nil_r|].
  by rewrite str_app_cons, !rev_cons, IH, str_app_assoc.
Qed.

Lemma rev_involutive s : String.rev (String.rev s) = s.
Proof.
  induction s as [|c s IH]; [done|].
  by rewrite rev_cons, rev_app_distr, IH.
Qed.

(** Reading a text that begins with a full line. *)
Lemma readlines_go_line s1 : forall cur rest,
  no_line_break s1 = true ->
  readlines_go cur (s1 +:+ String nl rest)
  = String.rev (String nl (String.rev_app s1 cur)) :: readlines_go "" rest.
Proof.
  induction s1 as [|c s1 IH]; intros cur rest Hs1.
  { change ("" +:+ String nl rest) with (String nl rest).
    cbn [readlines_go String.rev_app]. by rewrite Ascii.eqb_refl. }
  cbn [no_line_break] in Hs1.
  apply andb_true_iff in Hs1 as [[Hnl Hcr]%andb_true_iff Hs1].
  apply negb_true_iff in Hnl, Hcr.
  rewrite str_app_cons. cbn [readlines_go String.rev_app].
  rewrite Hnl, Hcr. by apply IH.
Qed.

Lemma readlines_first_line s1 rest :
  no_line_break s1 = true ->
  readlines ((s1 +:+ NL) +:+ rest) = (s1 +:+ NL) :: readlines rest.
Proof.
  intros Hs1. unfold readlines, NL.
  rewrite str_app_assoc. change (String nl "" +:+ rest) with (String nl rest).
  rewrite readlines_go_line by done. f_equal.
  change (String.rev_app s1 "") with (String.rev s1).
  by rewrite rev_cons, rev_involutive.
Qed.

Lemma written_header_first h types :
  exists tl,
    _write_rinex2_header h types = (version2_record +:+ NL) :: tl.
Proof.
  unfold _write_rinex2_header.
  destruct (approx_pos h) as [[px py] pz].
  destruct (ant_delta (antenna h)) as [[dh de] dn].
  eexists. cbn [app]. reflexivity.
Qed.

(** X14: a file that the call has written is left as it is by a second
    call: the output of a successful conversion is a version 2 file, so
    converting it again copies it. *)
Theorem conversion_idempotent input_file out :
  convert_rinex3_to_rinex2 input_file = (Ok true, Some out) ->
  convert_rinex3_to_rinex2 out = (Ok true, Some out).
Proof.
  unfold convert_rinex3_to_rinex2 at 1.
  destruct (readlines input_file) as [|line0 rest] eqn:Hl; [done|].
  destruct (negb (startswith "3" (strip (slice 0 9 line0)))) eqn:Hv.
  { intros [= <-]. unfold convert_rinex3_to_rinex2. by rewrite Hl, Hv. }
  destruct (_parse_rinex3_header (line0 :: rest)) as [h|e]; [|done].
  destruct (_build_obs_type_mapping h) as [types mapping].
  destruct types as [|t types]; [done|]. intros [= <-].
  destruct (written_header_first h (t :: types)) as [tl ->].
  cbn [app join foldr]. fold (join (tl ++ _convert_data (line0 :: rest)
    (header_end_line h + 1) h (t :: types) mapping)).
  unfold convert_rinex3_to_rinex2.
  rewrite readlines_first_line by reflexivity.
  reflexivity.
Qed.

End Idempotence.

Lemma conversion_idempotent_witness :
  exists out,
    convert_rinex3_to_rinex2 file_no_terminator = (Ok true, Some out)
    /\ convert_rinex3_to_rinex2 out = (Ok true, Some out).
Proof.
  eexists. split; [vm_compute; reflexivity|].
  apply (conversion_idempotent file_no_terminator).
  vm_compute. reflexivity.
Defined.

(** ** Stripping and padding *)

Section Strip.
Import Py.

Lemma rev_nil_inv s : String.rev s = "" -> s = "".
Proof.
  intros Hr. apply (f_equal String.length) in Hr.
  rewrite length_rev in Hr. by destruct s.
Qed.

Lemma rev_spaces n : String.rev (spaces n) = spaces n.
Proof.
  induction n as [|n IH]; [done|].
  cbn [spaces]. rewrite rev_cons, IH. clear IH.
  induction n as [|n IH]; [done|]. cbn [spaces].
  by rewrite str_app_cons, IH.
Qed.

Lemma lstrip_idem s : lstrip (lstrip s) = lstrip s.
Proof.
  induction s as [|c s IH]; [done|]. cbn [lstrip].
  destruct (isspace c) eqn:Hc; [done|]. cbn [lstrip]. by rewrite Hc.
Qed.

Lemma lstrip_spaces_app n s : lstrip (spaces n +:+ s) = lstrip s.
Proof. induction n as [|n IH]; [done|]. cbn [spaces]. by rewrite str_app_cons. Qed.

Lemma lstrip_snoc a c :
  lstrip (a +:+ String c "")
  = match lstrip a with
    | "" => if isspace c then "" else String c ""
    | t => t +:+ String c ""
    end.
Proof.
  induction a as [|x a IH]; [done|].
  rewrite str_app_cons. cbn [lstrip]. by destruct (isspace x).
Qed.

(** [rstrip] by recursion on the text. *)
Lemma rstrip_cons c s :
  rstrip (String c s)
  = match rstrip s with
    | "" => if isspace c then "" else String c ""
    | t => String c t
    end.
Proof.
  unfold rstrip. rewrite rev_cons, lstrip_snoc.
  destruct (lstrip (String.rev s)) as [|x t] eqn:Ht.
  - by destruct (isspace c).
  - rewrite rev_app_distr.
    destruct (String.rev (String x t)) eqn:Hr; [|done].
    by apply rev_nil_inv in Hr.
Qed.

Lemma lstrip_rstrip s : lstrip (rstrip s) = rstrip (lstrip s).
Proof.
  induction s as [|c s IH]; [done|].
  rewrite rstrip_cons. cbn [lstrip].
  destruct (isspace c) eqn:Hc.
  - rewrite <- IH. destruct (rstrip s) as [|x t]; [done|].
    change (lstrip (String c (String x t)))
      with (if isspace c then lstrip (String x t) else String c (String x t)).
    by rewrite Hc.
  - rewrite rstrip_cons.
    destruct (rstrip s); cbn [lstrip]; by rewrite Hc.
Qed.

Lemma rstrip_idem s : rstrip (rstrip s) = rstrip s.
Proof. unfold rstrip. by rewrite rev_involutive, lstrip_idem. Qed.

Lemma rstrip_app_spaces s n : rstrip (s +:+ spaces n) = rstrip s.
Proof.
  unfold rstrip. by rewrite rev_app_distr, rev_spaces, lstrip_spaces_app.
Qed.

Lemma text_field_strip w s : String.length s <= w -> text_field w (strip s).
Proof.
  intros Hw. unfold text_field, strip. split; [|split].
  - by rewrite lstrip_rstrip, lstrip_idem.
  - apply rstrip_idem.
  - pose proof (length_strip s). unfold strip in *. lia.
Qed.

Lemma text_field_strip_slice a b line :
  text_field (b - a) (strip (slice a b line)).
Proof. apply text_field_strip. rewrite length_slice. lia. Qed.

Lemma text_field_mono w w' s : w <= w' -> text_field w s -> text_field w' s.
Proof. intros Hw (? & ? & ?). repeat split; [done..|lia]. Qed.

(** A text field padded with blanks, read back. *)
Lemma strip_padded w s n : text_field w s -> strip (s +:+ spaces n) = s.
Proof.
  intros (Hl & Hr & _). unfold strip.
  destruct s as [|c s].
  - change ("" +:+ spaces n) with (spaces n).
    rewrite <- (str_app_nil_r (spaces n)), lstrip_spaces_app. done.
  - assert (isspace c = false) as Hc.
    { cbn [lstrip] in Hl. destruct (isspace c) eqn:Hc; [|done].
      apply (f_equal String.length) in Hl.
      pose proof (length_lstrip s). cbn in Hl. lia. }
    rewrite str_app_cons. cbn [lstrip]. rewrite Hc.
    rewrite <- str_app_cons. by rewrite rstrip_app_spaces.
Qed.

Lemma str_take_app_le n a b :
  n <= String.length a -> str_take n (a +:+ b) = str_take n a.
Proof.
  revert a. induction n as [|n IH]; intros a Hn; [done|].
  destruct a as [|c a]; [cbn in Hn; lia|].
  rewrite str_app_cons. cbn [str_take]. rewrite IH; [done|cbn in Hn; lia].
Qed.

Lemma str_take_all n a : String.length a <= n -> str_take n a = a.
Proof.
  revert a. induction n as [|n IH]; intros a Hn.
  - destruct a; [done | cbn in Hn; lia].
  - destruct a as [|c a]; [done|]. cbn [str_take].
    rewrite IH; [done | cbn in Hn; lia].
Qed.

Lemma str_take_app_length a b : str_take (String.length a) (a +:+ b) = a.
Proof. rewrite str_take_app_le by done. by apply str_take_all. Qed.

Lemma str_drop_app_length a b : str_drop (String.length a) (a +:+ b) = b.
Proof. induction a as [|c a IH]; [done|]. by rewrite str_app_cons. Qed.

Lemma str_take_spaces n k : n <= k -> str_take n (spaces k) = spaces n.
Proof.
  revert k. induction n as [|n IH]; intros k Hn; [by destruct k|].
  destruct k as [|k]; [lia|]. cbn [spaces str_take]. rewrite IH; [done|lia].
Qed.

Lemma str_take_padded n s k :
  String.length s <= n <= String.length s + k ->
  str_take n (s +:+ spaces k) = s +:+ spaces (n - String.length s).
Proof.
  revert n. induction s as [|c s IH]; intros n Hn.
  - cbn in *. change ("" +:+ spaces k) with (spaces k).
    rewrite Nat.sub_0_r. apply str_take_spaces. lia.
  - destruct n as [|n]; [cbn in Hn; lia|].
    rewrite !str_app_cons. cbn [str_take String.length]. rewrite IH; [done|].
    cbn in Hn. lia.
Qed.

(** A column of a written record, read back: the field [s] was written
    left-justified in [w] columns after [pre], and is read from the
    [r] columns that start there. *)
Lemma read_written_field w r s pre post :
  text_field r s -> r <= w ->
  strip (slice (String.length pre) (String.length pre + r)
           (pre +:+ fmt_s w s +:+ post))
  = s.
Proof.
  intros Hs Hr. unfold slice, fmt_s, ljust.
  rewrite str_drop_app_length.
  replace (String.length pre + r - String.length pre) with r by lia.
  destruct Hs as (Hl & Hrs & Hlen).
  rewrite str_take_app_le by (rewrite str_length_app, length_spaces; lia).
  rewrite str_take_padded by lia.
  by apply (strip_padded r).
Qed.

End Strip.

(** ** Text fields of the header *)

Section TextFields.
Context `{PyFloat}.
Import Py.

Lemma text_field_read a b w line :
  b - a <= w -> text_field w (strip (slice a b line)).
Proof.
  intros Hw. eapply text_field_mono; [exact Hw|]. apply text_field_strip_slice.
Qed.

Lemma text_field_empty w : text_field w "".
Proof. repeat split. cbn. lia. Qed.

Lemma initial_header_text_fields : text_fields_ok initial_header.
Proof.
  unfold text_fields_ok, initial_header.
  cbn [version type_ system marker_name marker_number observer agency
       receiver antenna rec_serial rec_type rec_version ant_serial ant_type
       time_first time_last].
  split_and!; try apply text_field_empty; (repeat split; cbn; lia).
Qed.

Ltac text_fields Hok :=
  unfold text_fields_ok in *;
  cbn [version type_ system marker_name marker_number observer agency
       receiver antenna rec_serial rec_type rec_version ant_serial ant_type
       time_first time_last
       set_version_type set_marker_name set_marker_number
       set_observer_agency set_receiver set_antenna set_approx_pos
       set_obs_types set_interval set_time_first set_time_last
       set_header_end_line];
  destruct Hok as (? & ? & ? & ? & ? & ? & ? & ? & ? & ? & ? & ? & ? & ?);
  split_and!; first [assumption | apply text_field_read; cbn; lia].

(** Every record keeps the text fields within their columns. *)
Lemma header_record_text_fields i line rest h :
  text_fields_ok h ->
  match header_record i line rest h with
  | Next _ h' | Break h' => text_fields_ok h'
  | Fail _ => True
  end.
Proof.
  intros Hok. unfold header_record. remember (label_of line) as lbl eqn:Hlbl.
  repeat match goal with
  | |- context [if lbl == ?s then _ else _] =>
      destruct (lbl == s) eqn:?;
      [ first [ by text_fields Hok
              | destruct (three_floats line); by text_fields Hok
              | destruct (float_of_str _); by text_fields Hok
              | idtac ] |]
  end.
  - destruct (int _); [|exact I].
    destruct (scan_continuation _ _ _). by text_fields Hok.
  - done.
Qed.

Lemma parse_loop_text_fields skip i rest h h' :
  text_fields_ok h ->
  parse_loop skip i rest h = Ok h' ->
  text_fields_ok h'.
Proof.
  revert skip i h. induction rest as [|line rest IH]; intros skip i h Hok.
  { by intros [= <-]. }
  cbn [parse_loop]. destruct skip as [|sk]; [|by apply IH].
  pose proof (header_record_text_fields i line rest h Hok) as Hrec.
  destruct (header_record i line rest h) as [k h1|h1|e]; [by apply IH| |done].
  by intros [= <-].
Qed.

(** X15: every text field of a parsed header has no white space around
    it and is no longer than the columns it was read from, so that the
    writer's fixed-width columns hold it without overflow. *)
Theorem parsed_text_fields_fit lines h :
  _parse_rinex3_header lines = Ok h -> text_fields_ok h.
Proof.
  unfold _parse_rinex3_header. apply parse_loop_text_fields.
  apply initial_header_text_fields.
Qed.

End TextFields.

Lemma parsed_text_fields_fit_witness :
  exists h, _parse_rinex3_header full_header_lines = Ok h
    /\ marker_name h = "ABCD" /\ text_fields_ok h.
Proof.
  eexists. split; [reflexivity|]. split; [vm_compute; reflexivity|].
  apply (parsed_text_fields_fit full_header_lines). reflexivity.
Defined.

(** ** Reading a written header back *)

Section RoundTrip.
Context `{PyFloat}.
Import Py.

Lemma label_of_written content label :
  String.length content = 60 -> label <> "" ->
  label_of (content +:+ label) = strip label.
Proof.
  intros Hlen Hne. unfold label_of, slice_from.
  rewrite str_length_app, Hlen.
  destruct (Nat.ltb_spec 60 (60 + String.length label)) as [_|Hle].
  - by rewrite <- Hlen, str_drop_app_length.
  - destruct label; [done | cbn in Hle; lia].
Qed.

Lemma length_fmt_s w s : String.length s <= w -> String.length (fmt_s w s) = w.
Proof. intros Hs. unfold fmt_s. rewrite length_ljust. lia. Qed.

Lemma read_first_field b w s post :
  text_field b s -> b <= w ->
  strip (slice 0 b (fmt_s w s +:+ post)) = s.
Proof.
  intros Hs Hb.
  pose proof (read_written_field w b s "" post Hs Hb) as Hr.
  exact Hr.
Qed.

Lemma read_field a b w s pre post :
  String.length pre = a -> text_field (b - a) s -> b - a <= w -> a <= b ->
  strip (slice a b (pre +:+ fmt_s w s +:+ post)) = s.
Proof.
  intros <- Hs Hw Hab.
  pose proof (read_written_field w (b - String.length pre) s pre post Hs Hw)
    as Hr.
  by replace (String.length pre + (b - String.length pre)) with b in Hr by lia.
Qed.

Lemma parse_loop_next i line rest h h1 :
  header_record i line rest h = Next 0 h1 ->
  parse_loop 0 i (line :: rest) h = parse_loop 0 (S i) rest h1.
Proof. intros Hr. cbn [parse_loop]. by rewrite Hr. Qed.

Lemma header_record_unknown i line rest h :
  label_of line = "PGM / RUN BY / DATE"
  \/ label_of line = "WAVELENGTH FACT L1/2"
  \/ label_of line = "# / TYPES OF OBSERV" ->
  header_record i line rest h = Next 0 h.
Proof. unfold header_record. intros [-> | [-> | ->]]; reflexivity. Qed.

Lemma parse_loop_unknown i ls post h :
  Forall (fun l => label_of l = "# / TYPES OF OBSERV") ls ->
  parse_loop 0 i (ls ++ post) h = parse_loop 0 (length ls + i) post h.
Proof.
  intros Hall. revert i. induction Hall as [|l ls Hl Hall IH]; intros i; [done|].
  cbn [app length].
  rewrite (parse_loop_next i l _ h h)
    by (apply header_record_unknown; by right; right).
  rewrite IH. f_equal. lia.
Qed.

(** The records of the written header, as the parser takes them. *)
Lemma written_version_record i rest h :
  header_record i
    ("     2.11           OBSERVATION DATA    " +:+ fmt_s 20 "G"
       +:+ "RINEX VERSION / TYPE" +:+ NL) rest h
  = Next 0 (set_version_type "2.11" "O" "G" h).
Proof. reflexivity. Qed.

Lemma written_program_record i rest h :
  header_record i
    (fmt_s 20 "pygamit-bridge" +:+ fmt_s 20 "" +:+ fmt_s 20 ""
       +:+ "PGM / RUN BY / DATE" +:+ NL) rest h
  = Next 0 h.
Proof. reflexivity. Qed.

Lemma written_wavelength_record i rest h :
  header_record i
    ("     1     1" +:+ fmt_s 48 "" +:+ "WAVELENGTH FACT L1/2" +:+ NL) rest h
  = Next 0 h.
Proof. reflexivity. Qed.

Lemma written_end_record i rest h :
  header_record i (fmt_s 60 "" +:+ "END OF HEADER" +:+ NL) rest h
  = Break (set_header_end_line i h).
Proof. reflexivity. Qed.

Lemma written_marker_name i rest h s :
  text_field 60 s ->
  header_record i (fmt_s 60 s +:+ "MARKER NAME" +:+ NL) rest h
  = Next 0 (set_marker_name s h).
Proof.
  intros Hs. unfold header_record.
  rewrite label_of_written; [|apply length_fmt_s, Hs|done].
  change (strip ("MARKER NAME" +:+ NL)) with "MARKER NAME".
  rewrite (read_first_field 60 60 s _ Hs) by lia. reflexivity.
Qed.

Lemma written_marker_number i rest h s :
  text_field 20 s ->
  header_record i (fmt_s 60 s +:+ "MARKER NUMBER" +:+ NL) rest h
  = Next 0 (set_marker_number s h).
Proof.
  intros Hs. unfold header_record.
  rewrite label_of_written; [|apply length_fmt_s; destruct Hs as (_ & _ & ?); lia|done].
  change (strip ("MARKER NUMBER" +:+ NL)) with "MARKER NUMBER".
  rewrite (read_first_field 20 60 s _ Hs) by lia. reflexivity.
Qed.

Lemma written_time_first i rest h s :
  text_field 60 s ->
  header_record i (fmt_s 60 s +:+ "TIME OF FIRST OBS" +:+ NL) rest h
  = Next 0 (set_time_first s h).
Proof.
  intros Hs. unfold header_record.
  rewrite label_of_written; [|apply length_fmt_s, Hs|done].
  change (strip ("TIME OF FIRST OBS" +:+ NL)) with "TIME OF FIRST OBS".
  rewrite (read_first_field 60 60 s _ Hs) by lia. reflexivity.
Qed.

Lemma written_time_last i rest h s :
  text_field 60 s ->
  header_record i (fmt_s 60 s +:+ "TIME OF LAST OBS" +:+ NL) rest h
  = Next 0 (set_time_last s h).
Proof.
  intros Hs. unfold header_record.
  rewrite label_of_written; [|apply length_fmt_s, Hs|done].
  change (strip ("TIME OF LAST OBS" +:+ NL)) with "TIME OF LAST OBS".
  rewrite (read_first_field 60 60 s _ Hs) by lia. reflexivity.
Qed.

Lemma written_observer_agency i rest h o a :
  text_field 20 o -> text_field 20 a ->
  header_record i (fmt_s 20 o +:+ fmt_s 40 a +:+ "OBSERVER / AGENCY" +:+ NL)
    rest h
  = Next 0 (set_observer_agency o a h).
Proof.
  intros Ho Ha. unfold header_record.
  assert (String.length (fmt_s 20 o) = 20) as Hlo by apply length_fmt_s, Ho.
  assert (String.length (fmt_s 40 a) = 40) as Hla
    by (apply length_fmt_s; destruct Ha as (_ & _ & ?); lia).
  rewrite (read_first_field 20 20 o _ Ho) by lia.
  rewrite (read_field 20 40 40 a _ _ Hlo Ha) by lia.
  rewrite <- str_app_assoc.
  rewrite label_of_written; [|rewrite str_length_app; lia|done].
  reflexivity.
Qed.

Lemma written_receiver i rest h r :
  text_field 20 (rec_serial r) -> text_field 20 (rec_type r) ->
  text_field 20 (rec_version r) ->
  header_record i
    (fmt_s 20 (rec_serial r) +:+ fmt_s 20 (rec_type r)
       +:+ fmt_s 20 (rec_version r) +:+ "REC # / TYPE / VERS" +:+ NL) rest h
  = Next 0 (set_receiver r h).
Proof.
  intros Hs Ht Hv. destruct r as [s t v]. cbn [rec_serial rec_type rec_version] in *.
  unfold header_record.
  assert (String.length (fmt_s 20 s) = 20) as Hls by apply length_fmt_s, Hs.
  assert (String.length (fmt_s 20 t) = 20) as Hlt by apply length_fmt_s, Ht.
  assert (String.length (fmt_s 20 v) = 20) as Hlv by apply length_fmt_s, Hv.
  rewrite (read_first_field 20 20 s _ Hs) by lia.
  rewrite (read_field 20 40 20 t _ _ Hls Ht) by lia.
  rewrite <- (str_app_assoc (fmt_s 20 s)).
  rewrite (read_field 40 60 20 v (fmt_s 20 s +:+ fmt_s 20 t))
    by first [rewrite str_length_app; lia | done | lia].
  rewrite <- str_app_assoc.
  rewrite label_of_written; [|rewrite !str_length_app; lia|done].
  reflexivity.
Qed.

Lemma written_antenna i rest h s t :
  text_field 20 s -> text_field 20 t ->
  header_record i
    (fmt_s 20 s +:+ fmt_s 20 t +:+ fmt_s 20 "" +:+ "ANT # / TYPE" +:+ NL)
    rest h
  = Next 0 (set_antenna {| ant_serial := s; ant_type := t;
                           ant_delta := ant_delta (antenna h) |} h).
Proof.
  intros Hs Ht. unfold header_record.
  assert (String.length (fmt_s 20 s) = 20) as Hls by apply length_fmt_s, Hs.
  assert (String.length (fmt_s 20 t) = 20) as Hlt by apply length_fmt_s, Ht.
  rewrite (read_first_field 20 20 s _ Hs) by lia.
  rewrite (read_field 20 40 20 t _ _ Hls Ht) by lia.
  rewrite <- (str_app_assoc (fmt_s 20 s)), <- str_app_assoc.
  rewrite label_of_written;
    [|rewrite !str_length_app, Hls, Hlt;
      change (String.length (fmt_s 20 "")) with 20; lia|done].
  reflexivity.
Qed.

Lemma written_position x y z label :
  String.length (fmt_f 14 4 x) = 14 -> String.length (fmt_f 14 4 y) = 14 ->
  String.length (fmt_f 14 4 z) = 14 ->
  label = "APPROX POSITION XYZ" \/ label = "ANTENNA: DELTA H/E/N" ->
  label_of (fmt_f 14 4 x +:+ fmt_f 14 4 y +:+ fmt_f 14 4 z +:+ fmt_s 18 ""
              +:+ label +:+ NL) = label.
Proof.
  intros Hx Hy Hz Hl.
  rewrite <- (str_app_assoc (fmt_f 14 4 x)), <- (str_app_assoc _ (fmt_f 14 4 z)),
    <- (str_app_assoc _ (fmt_s 18 "")).
  rewrite label_of_written;
    [|rewrite !str_length_app, Hx, Hy, Hz;
      change (String.length (fmt_s 18 "")) with 18; lia
     |by destruct Hl as [-> | ->]].
  by destruct Hl as [-> | ->].
Qed.

Lemma written_interval x :
  String.length (fmt_f 10 3 x) = 10 ->
  label_of (fmt_f 10 3 x +:+ fmt_s 50 "" +:+ "INTERVAL" +:+ NL) = "INTERVAL".
Proof.
  intros Hx. rewrite <- str_app_assoc.
  rewrite label_of_written;
    [done
    |rewrite !str_length_app, Hx; change (String.length (fmt_s 50 "")) with 50; lia
    |done].
Qed.

Lemma header_record_numbers i line rest h :
  label_of line = "APPROX POSITION XYZ"
  \/ label_of line = "ANTENNA: DELTA H/E/N"
  \/ label_of line = "INTERVAL" ->
  exists h1, header_record i line rest h = Next 0 h1
    /\ version h1 = version h /\ type_ h1 = type_ h /\ system h1 = system h
    /\ marker_name h1 = marker_name h /\ marker_number h1 = marker_number h
    /\ observer h1 = observer h /\ agency h1 = agency h
    /\ receiver h1 = receiver h
    /\ ant_serial (antenna h1) = ant_serial (antenna h)
    /\ ant_type (antenna h1) = ant_type (antenna h)
    /\ obs_types h1 = obs_types h
    /\ time_first h1 = time_first h /\ time_last h1 = time_last h
    /\ header_end_line h1 = header_end_line h.
Proof.
  unfold header_record. intros [-> | [-> | ->]].
  - destruct (three_floats line); eexists; (split; [reflexivity|]); by split_and!.
  - destruct (three_floats line); eexists; (split; [reflexivity|]); by split_and!.
  - destruct (float_of_str _); eexists; (split; [reflexivity|]); by split_and!.
Qed.

Lemma code_lines_label types :
  length types <= 14 ->
  Forall (fun t => String.length t <= 6) types ->
  Forall (fun l => label_of l = "# / TYPES OF OBSERV") (obs_type_lines types).
Proof.
  intros Hlen Hall. rewrite obs_type_lines_chunks.
  apply Forall_lookup. intros i l. rewrite list_lookup_imap.
  destruct (chunks 9 types !! i) as [g|] eqn:Hg; [|done].
  intros [= <-].
  assert (0 < length g <= 9) as Hbound.
  { eapply (Forall_lookup_1 _ _ _ _ (chunks_bounds 9 types ltac:(lia)) Hg). }
  assert (Forall (fun x => String.length x <= 6) g) as Hg6.
  { apply Forall_forall. intros x Hx.
    assert (x ∈ types) as Hxt.
    { rewrite <- (concat_chunks 9 types) by lia.
      apply list_elem_of_In, in_concat. exists g.
      split; apply list_elem_of_In; [by eapply list_elem_of_lookup_2 | done]. }
    rewrite Forall_forall in Hall. by apply Hall. }
  unfold code_record_line.
  rewrite label_of_written; [done| |done].
  rewrite length_ljust, str_length_app, (length_columns 6 g Hg6).
  assert (String.length (if i =? 0 then fmt_d 6 (Z.of_nat (length types))
                         else "      ") = 6) as ->.
  { destruct (i =? 0); [by apply length_count_field | done]. }
  lia.
Qed.

End RoundTrip.

Section ReadBack.
Context `{PyFloat}.
Import Py.

Ltac header_fields :=
  cbn [version type_ system marker_name marker_number observer agency
       receiver antenna rec_serial rec_type rec_version ant_serial ant_type
       obs_types time_first time_last header_end_line
       set_version_type set_marker_name set_marker_number
       set_observer_agency set_receiver set_antenna set_approx_pos
       set_obs_types set_interval set_time_first set_time_last
       set_header_end_line initial_header] in *.

Ltac number_record lem :=
  match goal with
  | |- context [parse_loop 0 ?i (?l :: ?rest) ?h0] =>
      let h1 := fresh "h" in
      let Hr := fresh "Hr" in
      let E := fresh "E" in
      destruct (header_record_numbers i l rest h0) as (h1 & Hr & E);
      [ lem | rewrite (parse_loop_next _ _ _ _ _ Hr); clear Hr ]
  end.

(** X16: the header that the writer produces is read back by the parser
    with every text field as it was; the version is then 2.11 and the
    system G, no observation code is declared, and the terminator is the
    last line written. *)
Theorem written_header_read_back h types :
  text_fields_ok h ->
  float_fields_fit h ->
  length types <= 14 ->
  Forall (fun t => String.length t <= 6) types ->
  exists h',
    _parse_rinex3_header (_write_rinex2_header h types) = Ok h'
    /\ version h' = "2.11" /\ type_ h' = "O" /\ system h' = "G"
    /\ marker_name h' = marker_name h
    /\ marker_number h' = marker_number h
    /\ observer h' = observer h /\ agency h' = agency h
    /\ receiver h' = receiver h
    /\ ant_serial (antenna h') = ant_serial (antenna h)
    /\ ant_type (antenna h') = ant_type (antenna h)
    /\ time_first h' = time_first h /\ time_last h' = time_last h
    /\ obs_types h' = ∅
    /\ header_end_line h' = length (_write_rinex2_header h types) - 1.
Proof.
  intros Hok Hfit Hlen Hall.
  destruct Hok as (Hv & Hty & Hsys & Hmn & Hmnum & Hobs & Hag & Hrs & Hrt
                   & Hrv & Has & Hat & Htf & Htl).
  pose proof (code_lines_label types Hlen Hall) as Hcodes.
  unfold float_fields_fit in Hfit.
  unfold _parse_rinex3_header, _write_rinex2_header.
  destruct (approx_pos h) as [[px py] pz].
  destruct (ant_delta (antenna h)) as [[dh de] dn] eqn:Hdelta.
  destruct Hfit as [Hf Hiv]. rewrite !Forall_cons in Hf.
  destruct Hf as (Hpx & Hpy & Hpz & Hdh & Hde & Hdn & _).
  destruct (marker_number h) as [|c1 s1] eqn:Emn;
  destruct (time_first h) as [|c2 s2] eqn:Etf;
  destruct (time_last h) as [|c3 s3] eqn:Etl;
  cbn [app nonempty].
  all: erewrite parse_loop_next by apply written_version_record.
  all: erewrite parse_loop_next by apply written_program_record.
  all: erewrite parse_loop_next by apply written_marker_name, Hmn.
  all: try erewrite parse_loop_next by apply written_marker_number, Hmnum.
  all: erewrite parse_loop_next by (by apply written_observer_agency).
  all: erewrite parse_loop_next by (by apply written_receiver).
  all: erewrite parse_loop_next by (by apply written_antenna).
  all: number_record ltac:(left; by apply written_position; [..|left]).
  all: number_record ltac:(right; left; by apply written_position; [..|right]).
  all: erewrite parse_loop_next by apply written_wavelength_record.
  all: rewrite (parse_loop_unknown _ _ _ _ Hcodes); cbn [app].
  all: number_record ltac:(right; right; by apply written_interval).
  all: try erewrite parse_loop_next by apply written_time_first, Htf.
  all: try erewrite parse_loop_next by apply written_time_last, Htl.
  all: cbn [parse_loop]; rewrite written_end_record.
  all: eexists; (split; [reflexivity|]).
  all: destruct_and!; header_fields.
  all: split_and!; try congruence.
  all: repeat (cbn [length app] || rewrite length_app); lia.
Qed.

End ReadBack.

Lemma written_header_read_back_witness :
  exists h',
    _parse_rinex3_header (_write_rinex2_header full_header ["C1"; "L1"])
      = Ok h'
    /\ marker_name h' = "ABCD"
    /\ marker_number h' = "66001M003"
    /\ agency h' = "some agency"
    /\ header_end_line h' = 13.
Proof.
  destruct (written_header_read_back full_header ["C1"; "L1"])
    as (h' & Hp & _ & _ & _ & Hmn & Hnum & _ & Hag & _ & _ & _ & _ & _ & _ & Hend).
  - unfold text_fields_ok, text_field. split_and!; first [reflexivity | cbn; lia].
  - split; [|reflexivity]. repeat constructor; reflexivity.
  - cbn. lia.
  - repeat constructor; cbn; lia.
  - exists h'. split; [exact Hp|]. split; [exact Hmn|]. split; [exact Hnum|].
    split; [exact Hag|]. rewrite Hend. reflexivity.
Defined.

(** ** Values that are already laid out *)

Section AlignedValues.
Import Py.

Lemma rstrip_ends_nonspace a c :
  isspace c = false -> rstrip (a +:+ String c "") = a +:+ String c "".
Proof.
  intros Hc. unfold rstrip. rewrite rev_app_distr.
  change (String.rev (String c "")) with (String c "").
  rewrite str_app_cons. cbn [lstrip]. rewrite Hc.
  change (String c ("" +:+ String.rev a)) with (String c "" +:+ String.rev a).
  rewrite rev_app_distr, rev_involutive. done.
Qed.

Lemma rstrip_flags num l s :
  rstrip num = num -> num <> "" ->
  (isspace l = true -> l = " "%char) ->
  (isspace s = true -> s = " "%char) ->
  rstrip (num +:+ String l (String s ""))
  = num +:+ (if isspace s
             then if isspace l then "" else String l ""
             else String l (String s "")).
Proof.
  intros Hnum Hne Hl Hs.
  destruct (isspace s) eqn:Es.
  - rewrite (Hs eq_refl).
    destruct (isspace l) eqn:El.
    + rewrite (Hl eq_refl). change (String " " (String " " "")) with (spaces 2).
      by rewrite rstrip_app_spaces, str_app_nil_r.
    + change (String l (String " " "")) with (String l "" +:+ spaces 1).
      rewrite <- str_app_assoc, rstrip_app_spaces.
      by apply rstrip_ends_nonspace.
  - change (String l (String s "")) with (String l "" +:+ String s "").
    rewrite <- str_app_assoc. by apply rstrip_ends_nonspace.
Qed.

Lemma str_drop_app_add a b k :
  str_drop (String.length a + k) (a +:+ b) = str_drop k b.
Proof. induction a as [|c a IH]; [done|]. by rewrite str_app_cons. Qed.

(** X17: a 16-column value whose 14-column number ends in its last
    column, followed by two flags that are blank or printable, is written
    exactly as it was read. *)
Theorem aligned_value_copied num l s :
  String.length num = 14 ->
  rstrip num = num ->
  (isspace l = true -> l = " "%char) ->
  (isspace s = true -> s = " "%char) ->
  fmt_value (num +:+ String l (String s "")) = num +:+ String l (String s "").
Proof.
  intros Hlen Hnum Hl Hs. unfold fmt_value.
  assert (num <> "") as Hne by (intros ->; discriminate).
  assert ((0 <? String.length (num +:+ String l (String s ""))) = true) as ->.
  { rewrite str_length_app, Hlen. reflexivity. }
  rewrite (rstrip_flags num l s Hnum Hne Hl Hs).
  assert (forall t, slice 0 14 (num +:+ t) = num) as Htake.
  { intros t. unfold slice. cbn [str_drop Nat.sub].
    rewrite <- Hlen. apply str_take_app_length. }
  assert (forall t, str_drop 14 (num +:+ t) = t) as Hdrop.
  { intros t. rewrite <- Hlen. apply str_drop_app_length. }
  assert (forall t, str_drop 15 (num +:+ t) = str_drop 1 t) as Hdrop'.
  { intros t. change 15 with (14 + 1). rewrite <- Hlen.
    apply str_drop_app_add. }
  rewrite Htake. unfold slice. rewrite !Hdrop, !Hdrop', str_length_app, Hlen.
  destruct (isspace s) eqn:Es.
  - rewrite (Hs eq_refl). destruct (isspace l) eqn:El.
    + by rewrite (Hl eq_refl).
    + reflexivity.
  - reflexivity.
Qed.

End AlignedValues.

Lemma aligned_value_copied_witness :
  fmt_value "  20000000.123 7" = "  20000000.123 7".
Proof.
  apply (aligned_value_copied "  20000000.123" " " "7");
    first [reflexivity | discriminate | intros _; reflexivity].
Defined.
